(** * Elevation profile generator: a shallow embedding and its properties

    Source: [src/elevation-profiler/ElevationProfileGenerator.js].

    The module samples points along a GeoJSON LineString, requests the
    terrain-rgb tiles that cover the line, and decodes one elevation per
    sampled point.

    JavaScript numbers are modelled through the interface [JsNumber], with
    two instances: exact rationals ([Q]), used for every general statement,
    and IEEE 754 binary64 ([float], Rocq's primitive floats), used to replay
    concrete runs bit for bit.  The external packages (turf, tile-cover,
    sphericalmercator, get-pixels) are the interface [Collaborators]. *)

From Stdlib Require Import ZArith QArith Qround Lqa Floats Uint63 Lia Bool String Sorted Permutation.
From stdpp Require Import base list.

(** ** JavaScript numbers *)

Class JsNumber (num : Type) := {
  of_Z : Z -> num;                 (* integer literals and loop counters *)
  add : num -> num -> num;
  sub : num -> num -> num;
  mul : num -> num -> num;
  div : num -> num -> num;
  ltb : num -> num -> bool;        (* a < b *)
  leb : num -> num -> bool;        (* a <= b *)
  (* JSON.parse(JSON.stringify(x)) for a number x; None is null *)
  JSON_number : num -> option num;
}.

Declare Scope js_scope.
Delimit Scope js_scope with js.
Notation "a + b" := (add a b) : js_scope.
Notation "a - b" := (sub a b) : js_scope.
Notation "a * b" := (mul a b) : js_scope.
Notation "a / b" := (div a b) : js_scope.
Notation "a <? b" := (ltb a b) : js_scope.
Notation "a <=? b" := (leb a b) : js_scope.
Notation "a >=? b" := (leb b a) : js_scope.

(** A decimal literal [m / 10^e], e.g. [decimal 1 1] for [0.1].  On binary64
    the correctly rounded quotient of two exactly representable integers is
    the double that the literal denotes. *)
Definition decimal {num} `{JsNumber num} (m : Z) (e : Z) : num :=
  (of_Z m / of_Z (10 ^ e))%js.

(** Exact arithmetic. *)
Definition Qltb (a b : Q) : bool := negb (Qle_bool b a).

#[export] Instance JsNumber_Q : JsNumber Q := {|
  of_Z := inject_Z;
  add := Qplus;
  sub := Qminus;
  mul := Qmult;
  div := Qdiv;
  ltb := Qltb;
  leb := Qle_bool;
  JSON_number := Some;
|}.

(** IEEE 754 binary64, as a JavaScript engine computes.  [float_of_Z] is
    exact on the integers a double represents exactly, below [2^53] in
    absolute value. *)
Definition float_of_Z (z : Z) : float :=
  match z with
  | Z0 => PrimFloat.of_uint63 0
  | Zpos _ => PrimFloat.of_uint63 (Uint63.of_Z z)
  | Zneg p => PrimFloat.opp (PrimFloat.of_uint63 (Uint63.of_Z (Zpos p)))
  end.

(** [JSON.stringify] writes [null] for [NaN] and the infinities, and [0]
    for both zeros; every other double is written with the shortest
    decimal that [JSON.parse] reads back as the same double. *)
Definition float_JSON_number (x : float) : option float :=
  if PrimFloat.is_finite x
  then Some (if PrimFloat.eqb x PrimFloat.zero then PrimFloat.zero else x)
  else None.

#[export] Instance JsNumber_float : JsNumber float := {|
  of_Z := float_of_Z;
  add := PrimFloat.add;
  sub := PrimFloat.sub;
  mul := PrimFloat.mul;
  div := PrimFloat.div;
  ltb := PrimFloat.ltb;
  leb := PrimFloat.leb;
  JSON_number := float_JSON_number;
|}.

(** ** Constants of the module *)

Definition ZOOM_LEVEL : Z := 15.
Definition TILE_SIZE : Z := 256.

(** ** Data model *)

Section DataModel.
Context {num : Type}.

(** A GeoJSON position [[longitude, latitude]]. *)
Definition Position : Type := num * num.

(** [lineString.geometry.coordinates]. *)
Record LineString := { coordinates : list Position }.

(** A point of the shared pixel space, [{x: .., y: ..}]. *)
Record SmCoordinates := { sm_x : num; sm_y : num }.

(** The decoded image of a tile; [get col row channel]. *)
Record Pixels := { get : num -> num -> Z -> num }.

(** A sampled point: the feature returned by [along], whose [properties] are
    filled in place by the successive passes. *)
Record PointFeature := {
  point_coordinates : Position;
  distanceAlongLine : num;
  smCoordinates : option SmCoordinates;
  elevation : option num;
}.

(** A feature of the result: the copy of a sampled point that
    [JSON.parse(JSON.stringify(point))] makes, its [smCoordinates] deleted.
    A number is [None] where the copy holds [null]; [feature_elevation] is
    [None] when the copy has no such key. *)
Record Feature := {
  feature_coordinates : option num * option num;
  feature_distanceAlongLine : option num;
  feature_smCoordinates : option SmCoordinates;
  feature_elevation : option (option num);
}.

Record FeatureCollection := { features : list Feature }.

(** An entry of [requiredTilesObjects]. *)
Record TileObject := {
  tile_coordinates : Z * Z * Z;
  tile_smCoordinates : SmCoordinates;
  tileData : option Pixels;
}.

(** The URL requested from the tile server, by its variable parts. *)
Record TileRequest := {
  request_z : Z;
  request_x : Z;
  request_y : Z;
  access_token : string;
}.

(** An entry of [tilePromises]: the promise of [_getPromisifiedTileRequest]
    chained with the callback that stores the pixels in
    [requiredTilesObjects[requiredTilesObjectsIndex]]. *)
Record TilePromise := {
  request : TileRequest;
  requiredTilesObjectsIndex : nat;
}.

(** The module-level variables. *)
Record ModuleState := {
  requiredTilesObjects : list TileObject;
  tilePromises : list TilePromise;
  minKmBetweenPoints : option num;
}.

(** The argument [minMetersBetweenPoints]. *)
Inductive MinMeters :=
| undefined
| null
| meters (minMetersBetweenPoints : num).

End DataModel.

Arguments LineString : clear implicits.
Arguments SmCoordinates : clear implicits.
Arguments Pixels : clear implicits.
Arguments PointFeature : clear implicits.
Arguments Feature : clear implicits.
Arguments FeatureCollection : clear implicits.
Arguments TileObject : clear implicits.
Arguments TilePromise : clear implicits.
Arguments ModuleState : clear implicits.
Arguments MinMeters : clear implicits.
Arguments Position : clear implicits.

(** What a [TypeError] was raised on. *)
Inductive Undefined :=
| coordinates_0               (* lineString.geometry.coordinates[0] *)
| point_smCoordinates         (* point.properties.smCoordinates *)
| matchingTile                (* requiredTilesObjects.filter(..)[0] *)
| matchingTile_tileData       (* matchingTile.tileData *)
| requiredTilesObjects_index. (* requiredTilesObjects[requiredTilesObjectsIndex] *)

(** The values a run can be rejected with: a [TypeError] of the module's own
    code, or the error [getPixels] passed to its callback. *)
Inductive JsError (E : Type) :=
| TypeError (reading : Undefined)
| GetPixelsError (error : E).
Arguments TypeError {E} reading.
Arguments GetPixelsError {E} error.

(** The state of the promise returned to the caller. *)
Inductive Outcome (num E : Type) :=
| Pending
| Resolved (featureCollection : FeatureCollection num)
| Rejected (error : JsError E).
Arguments Pending {num E}.
Arguments Resolved {num E} featureCollection.
Arguments Rejected {num E} error.

(** ** External collaborators *)

(** The imported packages, as the module calls them. *)
Class Collaborators (num E : Type) := {
  (* length(lineString, {units: "kilometers"}) *)
  turf_length : LineString num -> num;
  (* along(lineString, distance, {units: "kilometers"}).geometry.coordinates *)
  turf_along : LineString num -> num -> Position num;
  (* new SphericalMercator({size: TILE_SIZE}).px(lngLat, zoom) *)
  sphericalMercator_px : Position num -> Z -> num * num;
  (* TileCover.tiles(geometry, {min_zoom, max_zoom}) *)
  TileCover_tiles : LineString num -> Z -> Z -> list (Z * Z * Z);
  (* getPixels(url, callback): the arguments the callback receives *)
  getPixels : TileRequest -> E + Pixels num;
}.

(** The built-in [Math] object. *)
Class JsMath (num : Type) := {
  Math_PI : num;
  Math_cos : num -> num;
  Math_ceil : num -> num;
}.

(** [Math] over exact rationals: the ceiling is exact, the cosine and the
    constant are those of the engine. *)
Definition Q_Math (PI : Q) (cos : Q -> Q) : JsMath Q := {|
  Math_PI := PI;
  Math_cos := cos;
  Math_ceil := fun q => inject_Z (Qceiling q);
|}.

Section Model.
Context {num E : Type} `{JsNumber num} `{JsMath num} `{Collaborators num E}.
Local Open Scope js_scope.

(** ** Sample planner *)

(** The [for] loop of [_getLineStringDistancesToCheck].  [remaining] is the
    number of values the counter [i] can still take below
    [numberOfPoints - 1]; the loop is entered at [i = 0] with
    [remaining = numberOfPoints - 1]. *)
Fixpoint distances_loop (numberOfPoints : Z) (stepDistance lineStringLength : num)
    (remaining : nat) (i : Z) (distances : list num) : list num :=
  match remaining with
  | O => distances
  | S remaining' =>
      if (i <? numberOfPoints - 1)%Z && (stepDistance * of_Z i <? lineStringLength)
      then distances_loop numberOfPoints stepDistance lineStringLength remaining'
             (i + 1)%Z (distances ++ [stepDistance * of_Z i])
      else distances
  end.

Definition _getLineStringDistancesToCheck (s : ModuleState num)
    (lineString : LineString num) (numberOfPoints : Z) : list num :=
  let lineStringLength := turf_length lineString in
  let stepDistance := lineStringLength / of_Z (numberOfPoints - 1) in
  let stepDistance :=
    match minKmBetweenPoints s with
    | Some minKm => if stepDistance <? minKm then minKm else stepDistance
    | None => stepDistance
    end in
  let distances :=
    distances_loop numberOfPoints stepDistance lineStringLength
      (Z.to_nat (numberOfPoints - 1)) 0%Z [] in
  distances ++ [lineStringLength].

Definition _getPointsToCheck (lineString : LineString num)
    (distancesToCheck : list num) : list (PointFeature num) :=
  map (fun distance =>
         {| point_coordinates := turf_along lineString distance;
            distanceAlongLine := distance * of_Z 1000;
            smCoordinates := None;
            elevation := None |})
      distancesToCheck.

Definition _getLineStringPoints (s : ModuleState num)
    (lineString : LineString num) (numberOfPoints : Z) : list (PointFeature num) :=
  let distancesToCheck := _getLineStringDistancesToCheck s lineString numberOfPoints in
  _getPointsToCheck lineString distancesToCheck.

(** ** Projection *)

Definition _addXYZCoordinatesToPointsGeoJSON (pointsArray : list (PointFeature num))
    (zoomLevel : Z) : list (PointFeature num) :=
  map (fun pointGeoJSON =>
         let pointSMCoordinates :=
           sphericalMercator_px (point_coordinates pointGeoJSON) zoomLevel in
         {| point_coordinates := point_coordinates pointGeoJSON;
            distanceAlongLine := distanceAlongLine pointGeoJSON;
            smCoordinates := Some {| sm_x := fst pointSMCoordinates;
                                     sm_y := snd pointSMCoordinates |};
            elevation := elevation pointGeoJSON |})
      pointsArray.

(** ** Required tiles and their requests *)

Definition _getTerrainTilePixelArray (x y z : Z) (requiredTilesObjectsIndex : nat)
    (access_token : string) (s : ModuleState num) : ModuleState num :=
  {| requiredTilesObjects := requiredTilesObjects s;
     tilePromises := tilePromises s ++
       [ {| request := {| request_z := z; request_x := x; request_y := y;
                          access_token := access_token |};
            requiredTilesObjectsIndex := requiredTilesObjectsIndex |} ];
     minKmBetweenPoints := minKmBetweenPoints s |}.

(** The body of the [forEach] over the required tiles. *)
Definition requiredTile_step (mapboxAccessToken : string) (requiredTile : Z * Z * Z)
    (index : nat) (s : ModuleState num) : ModuleState num :=
  let '(x, y, z) := requiredTile in
  let s :=
    {| requiredTilesObjects := requiredTilesObjects s ++
         [ {| tile_coordinates := (x, y, z);
              tile_smCoordinates := {| sm_x := of_Z x * of_Z TILE_SIZE;
                                       sm_y := of_Z y * of_Z TILE_SIZE |};
              tileData := None |} ];
       tilePromises := tilePromises s;
       minKmBetweenPoints := minKmBetweenPoints s |} in
  _getTerrainTilePixelArray x y z index mapboxAccessToken s.

Fixpoint requiredTiles_forEach (mapboxAccessToken : string)
    (requiredTiles2DArray : list (Z * Z * Z)) (index : nat)
    (s : ModuleState num) : ModuleState num :=
  match requiredTiles2DArray with
  | [] => s
  | requiredTile :: rest =>
      requiredTiles_forEach mapboxAccessToken rest (S index)
        (requiredTile_step mapboxAccessToken requiredTile index s)
  end.

Definition _getTileArrayFromLineString (lineString : LineString num)
    (minZoom maxZoom : Z) (mapboxAccessToken : string)
    (s : ModuleState num) : ModuleState num :=
  let requiredTiles2DArray := TileCover_tiles lineString minZoom maxZoom in
  requiredTiles_forEach mapboxAccessToken requiredTiles2DArray 0 s.

(** ** Coverage and decoding *)

Definition _pointIsWithinTile (pointSMCoordinates tileSMCoordinates : SmCoordinates num)
    : bool :=
  (sm_x pointSMCoordinates >=? sm_x tileSMCoordinates)
  && (sm_x pointSMCoordinates <=? sm_x tileSMCoordinates + of_Z TILE_SIZE)
  && (sm_y pointSMCoordinates >=? sm_y tileSMCoordinates)
  && (sm_y pointSMCoordinates <=? sm_y tileSMCoordinates + of_Z TILE_SIZE).

Definition _calculateHeightFromPixel (pixelRGBArray : num * num * num) : num :=
  let '(red, green, blue) := pixelRGBArray in
  of_Z (-10000) + ((red * of_Z 256 * of_Z 256 + green * of_Z 256 + blue) * decimal 1 1).

(** [requiredTilesObjects.filter(tile => _pointIsWithinTile(..))[0]]. *)
Definition matchingTile_of (pointSM : SmCoordinates num)
    (tiles : list (TileObject num)) : option (TileObject num) :=
  head (List.filter
          (fun tile => _pointIsWithinTile pointSM (tile_smCoordinates tile))
          tiles).

(** [xRelativeToTile] and [yRelativeToTile]. *)
Definition relativeToTile (pointSM : SmCoordinates num) (tile : TileObject num)
    : num * num :=
  (sm_x pointSM - sm_x (tile_smCoordinates tile),
   sm_y pointSM - sm_y (tile_smCoordinates tile)).

(** The body of the [forEach] of [_addHeightToPointsGeoJSON]: a [TypeError]
    is thrown when a property of [undefined] or [null] is read. *)
Definition addHeightToPoint (s : ModuleState num) (point : PointFeature num)
    : JsError E + PointFeature num :=
  match smCoordinates point with
  | None => inl (TypeError point_smCoordinates)
  | Some pointSM =>
      match matchingTile_of pointSM (requiredTilesObjects s) with
      | None => inl (TypeError matchingTile)
      | Some tile =>
          let '(xRelativeToTile, yRelativeToTile) := relativeToTile pointSM tile in
          match tileData tile with
          | None => inl (TypeError matchingTile_tileData)
          | Some pixels =>
              inr {| point_coordinates := point_coordinates point;
                     distanceAlongLine := distanceAlongLine point;
                     smCoordinates := smCoordinates point;
                     elevation := Some (_calculateHeightFromPixel
                       (get pixels xRelativeToTile yRelativeToTile 0,
                        get pixels xRelativeToTile yRelativeToTile 1,
                        get pixels xRelativeToTile yRelativeToTile 2)) |}
          end
      end
  end.

(** The [forEach] stops at the first exception. *)
Fixpoint _addHeightToPointsGeoJSON (s : ModuleState num)
    (points : list (PointFeature num)) : JsError E + list (PointFeature num) :=
  match points with
  | [] => inr []
  | point :: rest =>
      match addHeightToPoint s point with
      | inl error => inl error
      | inr point' =>
          match _addHeightToPointsGeoJSON s rest with
          | inl error => inl error
          | inr rest' => inr (point' :: rest')
          end
      end
  end.

(** [JSON.stringify] keeps the numbers that are finite, writes [null] for
    the others, and leaves out a property that is [undefined]. *)
Definition _getFormattedPointsResult (points : list (PointFeature num))
    : FeatureCollection num :=
  {| features :=
       map (fun point =>
              let pointCopy :=
                {| feature_coordinates :=
                     (JSON_number (fst (point_coordinates point)),
                      JSON_number (snd (point_coordinates point)));
                   feature_distanceAlongLine := JSON_number (distanceAlongLine point);
                   feature_smCoordinates := smCoordinates point;
                   feature_elevation := option_map JSON_number (elevation point) |} in
              {| feature_coordinates := feature_coordinates pointCopy;
                 feature_distanceAlongLine := feature_distanceAlongLine pointCopy;
                 feature_smCoordinates := None;
                 feature_elevation := feature_elevation pointCopy |})
           points |}.

(** ** Auto spacing *)

Definition _getPixelDistanceAtLatitudeInMeters (latitude : num) : num :=
  let EQUATORIAL_EARTH_CIRCUMFERENCE := decimal 40075016686 3 in
  EQUATORIAL_EARTH_CIRCUMFERENCE
  * (Math_cos (latitude * Math_PI / of_Z 180) / of_Z (2 ^ (ZOOM_LEVEL + 8))).

(** ** The pipeline *)

(** The synchronous part of the promise executor (the [try] block up to
    [Promise.all]): either the exception caught by [catch], or the points to
    check; with the module state it leaves. *)
Definition executor (lineString : LineString num) (numberOfPoints : Z)
    (mapboxAccessToken : string) (minMetersBetweenPoints : MinMeters num)
    (s : ModuleState num) : (JsError E + list (PointFeature num)) * ModuleState num :=
  let s := {| requiredTilesObjects := [];
              tilePromises := [];
              minKmBetweenPoints := minKmBetweenPoints s |} in
  let minKm : JsError E + option num :=
    match minMetersBetweenPoints with
    | undefined =>
        match coordinates lineString !! 0%nat with
        | None => inl (TypeError coordinates_0)
        | Some coordinate =>
            inr (Some (Math_ceil (_getPixelDistanceAtLatitudeInMeters (snd coordinate)
                                  * of_Z 10) / of_Z 10000))
        end
    | null => inr None
    | meters minMeters => inr (Some (minMeters / of_Z 1000))
    end in
  match minKm with
  | inl error => (inl error, s)
  | inr minKm =>
      let s := {| requiredTilesObjects := requiredTilesObjects s;
                  tilePromises := tilePromises s;
                  minKmBetweenPoints := minKm |} in
      let pointsToCheck := _getLineStringPoints s lineString numberOfPoints in
      let s := _getTileArrayFromLineString lineString ZOOM_LEVEL ZOOM_LEVEL
                 mapboxAccessToken s in
      let pointsToCheck := _addXYZCoordinatesToPointsGeoJSON pointsToCheck ZOOM_LEVEL in
      (inr pointsToCheck, s)
  end.

(** One tile promise settles: [getPixels] calls back, the request promise is
    rejected with the error or resolved with the pixels, and in the latter
    case the chained callback stores them. *)
Definition settle (promise : TilePromise) (s : ModuleState num)
    : option (JsError E) * ModuleState num :=
  match getPixels (request promise) with
  | inl error => (Some (GetPixelsError error), s)
  | inr pixels =>
      match requiredTilesObjects s !! requiredTilesObjectsIndex promise with
      | None => (Some (TypeError requiredTilesObjects_index), s)
      | Some tile =>
          (None,
           {| requiredTilesObjects :=
                <[ requiredTilesObjectsIndex promise :=
                     {| tile_coordinates := tile_coordinates tile;
                        tile_smCoordinates := tile_smCoordinates tile;
                        tileData := Some pixels |} ]> (requiredTilesObjects s);
              tilePromises := tilePromises s;
              minKmBetweenPoints := minKmBetweenPoints s |})
      end
  end.

(** The tile promises settle in the order [schedule] (indices into
    [promises]); [Promise.all] keeps the first rejection. *)
Fixpoint settle_in_order (promises : list TilePromise) (schedule : list nat)
    (rejection : option (JsError E)) (s : ModuleState num)
    : option (JsError E) * ModuleState num :=
  match schedule with
  | [] => (rejection, s)
  | k :: later =>
      match promises !! k with
      | None => settle_in_order promises later rejection s
      | Some promise =>
          let '(rejected, s) := settle promise s in
          settle_in_order promises later
            (match rejection with Some error => Some error | None => rejected end) s
      end
  end.

(** Every promise of the array has settled. *)
Definition all_settled (promises : list TilePromise) (schedule : list nat) : bool :=
  forallb (fun k => existsb (Nat.eqb k) schedule) (seq 0 (length promises)).

(** [getLineStringElevationPoints], run until the tile requests of
    [schedule] have called back: the state of the returned promise and the
    module state. *)
Definition getLineStringElevationPoints (lineString : LineString num)
    (numberOfPoints : Z) (mapboxAccessToken : string)
    (minMetersBetweenPoints : MinMeters num)
    (schedule : list nat) (s : ModuleState num) : Outcome num E * ModuleState num :=
  match executor lineString numberOfPoints mapboxAccessToken minMetersBetweenPoints s with
  | (inl error, s) => (Rejected error, s)
  | (inr pointsToCheck, s) =>
      let promises := tilePromises s in
      let '(rejection, s) := settle_in_order promises schedule None s in
      match rejection with
      | Some error => (Rejected error, s)
      | None =>
          if all_settled promises schedule then
            match _addHeightToPointsGeoJSON s pointsToCheck with
            | inl error => (Rejected error, s)
            | inr points => (Resolved (_getFormattedPointsResult points), s)
            end
          else (Pending, s)
      end
  end.

End Model.

(** The distances, in meters, that a call attaches to the points it samples
    ([properties.distanceAlongLine]), when the executor does not throw. *)
Definition sampledDistancesInMeters {num E : Type}
    `{JsNumber num} `{JsMath num} `{Collaborators num E}
    (lineString : LineString num) (numberOfPoints : Z)
    (minMetersBetweenPoints : MinMeters num) (s : ModuleState num)
    : option (list num) :=
  match fst (executor lineString numberOfPoints EmptyString minMetersBetweenPoints s) with
  | inl _ => None
  | inr pointsToCheck => Some (map distanceAlongLine pointsToCheck)
  end.

(** ** The sample planner, as the specification words it *)

Section SpecPlanner.
Context {num : Type} `{JsNumber num}.
Local Open Scope js_scope.

Fixpoint take_while {A : Type} (keep : A -> bool) (l : list A) : list A :=
  match l with
  | [] => []
  | a :: l' => if keep a then a :: take_while keep l' else []
  end.

(** step = pathLength / (numberOfPoints - 1), replaced by the minimum when
    one is in effect and the step is smaller; the multiples 0, step, 2*step,
    ... of the first numberOfPoints - 1 ranks, as long as they stay strictly
    below pathLength; then pathLength. *)
Definition spec_plan (pathLength : num) (numberOfPoints : Z)
    (minimumSpacing : option num) : list num :=
  let step := pathLength / of_Z (numberOfPoints - 1) in
  let step :=
    match minimumSpacing with
    | Some minimum => if step <? minimum then minimum else step
    | None => step
    end in
  take_while (fun distance => distance <? pathLength)
    (map (fun k => step * of_Z (Z.of_nat k)) (seq 0 (Z.to_nat (numberOfPoints - 1))))
  ++ [pathLength].

End SpecPlanner.

(** ** Test doubles *)

(** Collaborators that answer the same for every line: a line of length
    [lineStringLength] kilometers whose points all sit at [position], which
    projects to [pixel]; the tiles [tiles] cover it and [fetch] answers the
    tile requests. *)
Definition stub_collaborators {num : Type} (E : Type) (lineStringLength : num)
    (position : Position num) (pixel : num * num) (tiles : list (Z * Z * Z))
    (fetch : TileRequest -> E + Pixels num) : Collaborators num E := {|
  turf_length := fun _ => lineStringLength;
  turf_along := fun _ _ => position;
  sphericalMercator_px := fun _ _ => pixel;
  TileCover_tiles := fun _ _ _ => tiles;
  getPixels := fetch;
|}.

(** A tile image with the same color everywhere. *)
Definition uniform_pixels {num : Type} (red green blue : num) : Pixels num :=
  {| get := fun _ _ channel =>
              match channel with
              | 0%Z => red
              | 1%Z => green
              | _ => blue
              end |}.

(** A module state as a previous run may have left it. *)
Definition initial_state {num : Type} : ModuleState num :=
  {| requiredTilesObjects := []; tilePromises := []; minKmBetweenPoints := None |}.

(** A [Math] for the runs that never consult it (policies other than auto). *)
Definition unused_Math {num : Type} `{JsNumber num} : JsMath num := {|
  Math_PI := of_Z 3;
  Math_cos := fun _ => of_Z 1;
  Math_ceil := fun x => x;
|}.

(** A line whose coordinates the stubbed collaborators never read. *)
Definition any_line {num : Type} : LineString num := {| coordinates := [] |}.

(** The 24-bit integer formed by the three channels, red first. *)
Definition rgb24 (red green blue : Z) : Z := (red * 65536 + green * 256 + blue)%Z.

(** ** Vocabulary for the statements about a run *)

Section RunVocabulary.
Context {num E : Type} `{JsNumber num} `{JsMath num} `{Collaborators num E}.
Local Open Scope js_scope.

(** The request issued for a required tile. *)
Definition tileRequest_of (access_token : string) (requiredTile : Z * Z * Z)
    : TileRequest :=
  let '(x, y, z) := requiredTile in
  {| request_z := z; request_x := x; request_y := y; access_token := access_token |}.

(** The entry of [requiredTilesObjects] for a required tile, holding
    [tileData]. *)
Definition tileObject_of (requiredTile : Z * Z * Z) (tileData : option (Pixels num))
    : TileObject num :=
  let '(x, y, z) := requiredTile in
  {| tile_coordinates := (x, y, z);
     tile_smCoordinates := {| sm_x := of_Z x * of_Z TILE_SIZE;
                              sm_y := of_Z y * of_Z TILE_SIZE |};
     tileData := tileData |}.

(** The pixels of a tile whose request succeeds. *)
Definition fetched (access_token : string) (requiredTile : Z * Z * Z)
    : option (Pixels num) :=
  match getPixels (tileRequest_of access_token requiredTile) with
  | inl _ => None
  | inr pixels => Some pixels
  end.

(** The error of the first request, in the order the requests settle, that
    fails. *)
Fixpoint first_fetch_error (access_token : string) (tiles : list (Z * Z * Z))
    (schedule : list nat) : option E :=
  match schedule with
  | [] => None
  | k :: later =>
      match tiles !! k with
      | None => first_fetch_error access_token tiles later
      | Some requiredTile =>
          match getPixels (tileRequest_of access_token requiredTile) with
          | inl error => Some error
          | inr _ => first_fetch_error access_token tiles later
          end
      end
  end.

(** Every tile request settles, once: [schedule] lists each index of the
    tile promises exactly once. *)
Definition complete_schedule (schedule : list nat) (requests : nat) : Prop :=
  Permutation schedule (seq 0 requests).

(** The value [minKmBetweenPoints] takes for an argument
    [minMetersBetweenPoints], or the exception raised while computing it
    (lines 44 to 50 of the source). *)
Definition effectiveMinKm (lineString : LineString num)
    (minMetersBetweenPoints : MinMeters num) : JsError E + option num :=
  match minMetersBetweenPoints with
  | undefined =>
      match coordinates lineString !! 0%nat with
      | None => inl (TypeError coordinates_0)
      | Some coordinate =>
          inr (Some (Math_ceil (_getPixelDistanceAtLatitudeInMeters (snd coordinate)
                                * of_Z 10) / of_Z 10000))
      end
  | null => inr None
  | meters minMeters => inr (Some (minMeters / of_Z 1000))
  end.

(** The module state once the executor has run and the requests of [done]
    have called back. *)
Definition state_after (token : string) (tiles : list (Z * Z * Z))
    (minKm : option num) (done : list nat) : ModuleState num :=
  {| requiredTilesObjects :=
       imap (fun k tile =>
               tileObject_of tile
                 (if bool_decide (k ∈ done) then fetched token tile else None))
            tiles;
     tilePromises :=
       imap (fun k tile => {| request := tileRequest_of token tile;
                              requiredTilesObjectsIndex := k |}) tiles;
     minKmBetweenPoints := minKm |}.

(** The points the executor hands to the [then] callback. *)
Definition pointsToCheck_of (lineString : LineString num) (numberOfPoints : Z)
    (minKm : option num) : list (PointFeature num) :=
  _addXYZCoordinatesToPointsGeoJSON
    (_getLineStringPoints
       {| requiredTilesObjects := []; tilePromises := []; minKmBetweenPoints := minKm |}
       lineString numberOfPoints)
    ZOOM_LEVEL.

(** The module state once every request of a run has called back. *)
Definition final_state (token : string) (tiles : list (Z * Z * Z))
    (minKm : option num) : ModuleState num :=
  {| requiredTilesObjects := map (fun tile => tileObject_of tile (fetched token tile)) tiles;
     tilePromises := tilePromises (state_after token tiles minKm []);
     minKmBetweenPoints := minKm |}.


End RunVocabulary.

(** The pixel origin of an entry of [requiredTilesObjects], against its tile
    index. *)
Definition origin_from_index (object : TileObject Q) : Prop :=
  let '(x, y, _) := tile_coordinates object in
  (sm_x (tile_smCoordinates object) == inject_Z (x * 256)
   /\ sm_y (tile_smCoordinates object) == inject_Z (y * 256))%Q.

(** ** Concrete runs *)

(** Longitude 0, latitude 0 at zoom 15: the pixel [(4194304, 4194304)], the
    corner of tile [(16384, 16384)]. *)
Definition origin_pixel : Q * Q := (4194304, 4194304)%Q.
Definition origin_tile : Z * Z * Z := (16384, 16384, 15)%Z.
Definition west_tile : Z * Z * Z := (16383, 16384, 15)%Z.

(** A tile server that answers every request with the color (10, 0, 0). *)
Definition always_red (request : TileRequest) : nat + Pixels Q :=
  inr (uniform_pixels 10 0 0)%Q.

(** A tile server that fails with 503 on column 16383. *)
Definition fails_west (request : TileRequest) : nat + Pixels Q :=
  if (request_x request =? 16383)%Z then inl 503%nat
  else inr (uniform_pixels 10 0 0)%Q.

(** A line that starts and ends at longitude 0, latitude 0. *)
Definition zero_length_line : LineString Q :=
  {| coordinates := [(0, 0); (0, 0)]%Q |}.

(** Collaborators that answer a length of 0, the position at longitude 0,
    latitude 0 for every distance, and one tile, which holds that position. *)
Definition zero_length_world : Collaborators Q nat :=
  stub_collaborators nat 0%Q (0, 0)%Q origin_pixel [origin_tile] always_red.

(** [Math] at latitude 0, where the cosine is 1. *)
Definition equator_Math : JsMath Q := Q_Math (355 # 113) (fun _ => 1%Q).

(** A pixel grid that answers the column it is asked for. *)
Definition column_probe : Pixels Q := {| get := fun column _ _ => column |}.



(** Collaborators for a line of two coordinates: [along] answers the first
    one below the length of the line and the second one from the length on;
    the projection answers a pixel for each; the tiles [tiles] cover the
    line and [fetch] answers the tile requests. *)
Definition segment_collaborators {num : Type} `{JsNumber num} (E : Type)
    (lineStringLength : num) (start stop : Position num)
    (start_pixel stop_pixel : num * num) (tiles : list (Z * Z * Z))
    (fetch : TileRequest -> E + Pixels num) : Collaborators num E := {|
  turf_length := fun _ => lineStringLength;
  turf_along := fun _ distance =>
    if (distance <? lineStringLength)%js then start else stop;
  sphericalMercator_px := fun position _ =>
    if (fst position <? fst stop)%js then start_pixel else stop_pixel;
  TileCover_tiles := fun _ _ _ => tiles;
  getPixels := fetch;
|}.




(** The same line in exact arithmetic, its tile of one color. *)
Definition inside_tile_line : LineString Q :=
  {| coordinates := [(0.005, -0.005); (0.01098, -0.01098)]%Q |}.

Definition inside_tile_world : Collaborators Q nat :=
  segment_collaborators nat 0.94%Q
    (0.005, -0.005)%Q (0.01098, -0.01098)%Q
    (4194421, 4194421)%Q (4194560, 4194560)%Q
    [origin_tile] always_red.

(** A line that starts and ends at the same position, for which
    [TileCover.tiles] finds no tile. *)
Definition uncovered_world : Collaborators Q nat :=
  stub_collaborators nat 0%Q (0, 0)%Q origin_pixel [] always_red.

(** A module state that holds the tile [(0, 0)], fetched. *)
Definition probe_tile : TileObject Q := tileObject_of (0, 0, 15)%Z (Some column_probe).
Definition probe_state : ModuleState Q :=
  {| requiredTilesObjects := [probe_tile]; tilePromises := [];
     minKmBetweenPoints := None |}.

(** ** Vocabulary for the further properties *)

(** The value of [stepDistance] when the loop of
    [_getLineStringDistancesToCheck] starts (lines 76 to 79 of the source). *)
Definition stepDistance_of {num : Type} `{JsNumber num} (minKmBetweenPoints : option num)
    (lineStringLength : num) (numberOfPoints : Z) : num :=
  let stepDistance := (lineStringLength / of_Z (numberOfPoints - 1))%js in
  match minKmBetweenPoints with
  | Some minKm => if (stepDistance <? minKm)%js then minKm else stepDistance
  | None => stepDistance
  end.

(** * Properties *)

(** ** Arithmetic of the exact instance *)

Ltac js_Q := unfold decimal in *; cbn [of_Z add sub mul div ltb leb JsNumber_Q] in *.

Lemma Qltb_lt (a b : Q) : Qltb a b = true <-> (a < b)%Q.
Proof.
  unfold Qltb. rewrite negb_true_iff, <- not_true_iff_false, Qle_bool_iff.
  split; [apply Qnot_le_lt | apply Qlt_not_le].
Qed.

Lemma inject_Z_nonneg (z : Z) : (0 <= z)%Z -> (0 <= inject_Z z)%Q.
Proof. intros Hz. change 0%Q with (inject_Z 0). now rewrite <- Zle_Qle. Qed.

(** ** The sample planner *)

Section PlannerFacts.
Context {num E : Type} `{JsNumber num} `{Collaborators num E}.
Local Open Scope js_scope.

Lemma distances_loop_take_while (numberOfPoints : Z) (step L : num) :
  forall (remaining : nat) (i : Z) (distances : list num),
    (0 <= i)%Z ->
    remaining = Z.to_nat (numberOfPoints - 1 - i) ->
    distances_loop numberOfPoints step L remaining i distances =
    distances ++
      take_while (fun distance => distance <? L)
        (map (fun k => step * of_Z (i + Z.of_nat k)) (seq 0 remaining)).
Proof.
  induction remaining as [|r IH]; intros i distances Hi Hr.
  - cbn. now rewrite app_nil_r.
  - cbn [distances_loop seq map take_while].
    assert (Hguard : (i <? numberOfPoints - 1)%Z = true) by (apply Z.ltb_lt; lia).
    rewrite Hguard, Z.add_0_r. cbn [andb].
    destruct (step * of_Z i <? L).
    + rewrite IH by lia.
      rewrite <- app_assoc. cbn [app]. do 3 f_equal.
      rewrite <- seq_shift, map_map.
      apply map_ext. intros k. do 2 f_equal. lia.
    + now rewrite app_nil_r.
Qed.

(** The measure [remaining] never cuts the loop short: entered with
    [remaining = numberOfPoints - 1 - i], the model satisfies the unfolding
    equation of the [for] loop, guard included. *)
Lemma distances_loop_unfold (numberOfPoints : Z) (step L : num) (i : Z)
    (distances : list num) :
  (0 <= i)%Z ->
  distances_loop numberOfPoints step L (Z.to_nat (numberOfPoints - 1 - i)) i distances =
  if (i <? numberOfPoints - 1)%Z && (step * of_Z i <? L)
  then distances_loop numberOfPoints step L (Z.to_nat (numberOfPoints - 1 - (i + 1)))
         (i + 1)%Z (distances ++ [step * of_Z i])
  else distances.
Proof.
  intros Hi. destruct (Z.ltb_spec i (numberOfPoints - 1)) as [Hlt|Hge].
  - replace (Z.to_nat (numberOfPoints - 1 - i))
      with (S (Z.to_nat (numberOfPoints - 1 - (i + 1)))) by lia.
    cbn [distances_loop]. apply Z.ltb_lt in Hlt. now rewrite Hlt.
  - replace (Z.to_nat (numberOfPoints - 1 - i)) with O by lia. reflexivity.
Qed.

Lemma planner_refines_spec (s : ModuleState num) (lineString : LineString num)
    (numberOfPoints : Z) :
  _getLineStringDistancesToCheck s lineString numberOfPoints =
  spec_plan (turf_length lineString) numberOfPoints (minKmBetweenPoints s).
Proof.
  unfold _getLineStringDistancesToCheck, spec_plan.
  rewrite distances_loop_take_while by lia.
  cbn [app]. reflexivity.
Qed.

End PlannerFacts.

(** *** The plan in meters (exact arithmetic) *)

Lemma Qltb_comp (a a' b b' : Q) : (a == a')%Q -> (b == b')%Q -> Qltb a b = Qltb a' b'.
Proof.
  intros Ha Hb. unfold Qltb. f_equal.
  destruct (Qle_bool b a) eqn:Hle, (Qle_bool b' a') eqn:Hle'; try reflexivity.
  - apply Qle_bool_iff in Hle. rewrite Ha, Hb in Hle. apply Qle_bool_iff in Hle. congruence.
  - apply Qle_bool_iff in Hle'. rewrite <- Ha, <- Hb in Hle'. apply Qle_bool_iff in Hle'.
    congruence.
Qed.

Lemma Qltb_scale (a b : Q) : Qltb (a * 1000) (b * 1000) = Qltb a b.
Proof.
  destruct (Qltb a b) eqn:Hlt.
  - apply Qltb_lt. apply Qltb_lt in Hlt. lra.
  - apply not_true_iff_false. apply not_true_iff_false in Hlt.
    rewrite Qltb_lt in *. lra.
Qed.

Lemma take_while_Forall2 {A B : Type} (R : A -> B -> Prop) (p : A -> bool) (q : B -> bool)
    (l1 : list A) (l2 : list B) :
  (forall a b, R a b -> p a = q b) ->
  Forall2 R l1 l2 -> Forall2 R (take_while p l1) (take_while q l2).
Proof.
  intros Hpq. induction 1 as [|a b l1 l2 Hab Hl IH]; cbn; [constructor|].
  rewrite (Hpq a b Hab). destruct (q b); constructor; assumption.
Qed.

(** In meters, the sampled distances are the plan of the specification for
    the path length in meters and the minimum spacing in meters. *)
Lemma planner_in_meters {E : Type} {C : Collaborators Q E} (s : ModuleState Q)
    (lineString : LineString Q) (numberOfPoints : Z) (minimumMeters : option Q) :
  (2 <= numberOfPoints)%Z ->
  option_Forall2 Qeq (minKmBetweenPoints s)
    (option_map (fun minimum => minimum / 1000)%Q minimumMeters) ->
  Forall2 Qeq
    (map distanceAlongLine (_getLineStringPoints s lineString numberOfPoints))
    (spec_plan (turf_length lineString * 1000)%Q numberOfPoints minimumMeters).
Proof.
  intros Hn Hmin. unfold _getLineStringPoints, _getPointsToCheck.
  rewrite map_map. cbn [distanceAlongLine]. rewrite planner_refines_spec.
  unfold spec_plan. js_Q. set (L := turf_length lineString).
  change (inject_Z 1000) with 1000%Q.
  set (km := match minKmBetweenPoints s with Some _ => _ | None => _ end).
  set (m := match minimumMeters with Some _ => _ | None => _ end).
  assert (Hnz : ~ (inject_Z (numberOfPoints - 1) == 0)%Q).
  { change 0%Q with (inject_Z 0). rewrite inject_Z_injective. lia. }
  assert (Hstep0 : (L * 1000 / inject_Z (numberOfPoints - 1)
                    == L / inject_Z (numberOfPoints - 1) * 1000)%Q) by now field.
  assert (Hstep : (km * 1000 == m)%Q).
  { subst km m.
    destruct (minKmBetweenPoints s) as [kmMin|], minimumMeters as [minimum|];
      cbn in Hmin; inversion Hmin as [? ? Heq|]; subst; [|now rewrite Hstep0].
    assert (Hm : (minimum == kmMin * 1000)%Q) by (rewrite Heq; field).
    rewrite (Qltb_comp _ (L / inject_Z (numberOfPoints - 1) * 1000) _ (kmMin * 1000)
               Hstep0 Hm), Qltb_scale.
    destruct (Qltb _ kmMin); [now rewrite Hm|now rewrite Hstep0]. }
  rewrite map_app. apply Forall2_app; [|repeat constructor].
  clearbody km m.
  assert (Hmultiples : Forall2 (fun d d' => d * 1000 == d')%Q
            (map (fun k => km * inject_Z (Z.of_nat k))%Q
                 (seq 0 (Z.to_nat (numberOfPoints - 1))))
            (map (fun k => m * inject_Z (Z.of_nat k))%Q
                 (seq 0 (Z.to_nat (numberOfPoints - 1))))).
  { apply Forall2_fmap, Forall_Forall2_diag, Forall_forall. intros k _.
    rewrite <- Hstep. ring. }
  apply Forall2_fmap_l.
  apply take_while_Forall2; [|exact Hmultiples].
  intros d d' Hd. rewrite <- (Qltb_scale d L). apply Qltb_comp; [exact Hd|reflexivity].
Qed.

(** C1. For a path of positive length and [numberOfPoints >= 2], whatever
    number type the engine computes with, [_getLineStringDistancesToCheck]
    returns exactly the sequence the specification describes for the path
    length and the minimum spacing in effect ([spec_plan]), in kilometers;
    in exact arithmetic, the distances attached to the sampled points are,
    in meters, that sequence for the length in meters and the minimum in
    meters.  The two scenarios are replayed through the executor, in exact
    arithmetic and in binary64: 1000 m with 5 points and no minimum gives
    [0, 250, 500, 750, 1000]; 100 m with 50 points and a minimum of 60 m
    gives [0, 60, 100]. *)
Theorem sample_planner_emits_spec_sequence :
  (forall (num E : Type) (N : JsNumber num) (C : Collaborators num E)
          (s : ModuleState num) (lineString : LineString num) (numberOfPoints : Z),
      (2 <= numberOfPoints)%Z ->
      (of_Z 0 <? turf_length lineString)%js = true ->
      _getLineStringDistancesToCheck s lineString numberOfPoints =
      spec_plan (turf_length lineString) numberOfPoints (minKmBetweenPoints s))
  /\ (forall (E : Type) (C : Collaborators Q E) (s : ModuleState Q)
             (lineString : LineString Q) (numberOfPoints : Z)
             (minimumMeters : option Q),
         (2 <= numberOfPoints)%Z ->
         (0 < turf_length lineString)%Q ->
         option_Forall2 Qeq (minKmBetweenPoints s)
           (option_map (fun minimum => minimum / 1000)%Q minimumMeters) ->
         Forall2 Qeq
           (map distanceAlongLine (_getLineStringPoints s lineString numberOfPoints))
           (spec_plan (turf_length lineString * 1000)%Q numberOfPoints minimumMeters))
  /\ option_map (map Qred)
       (sampledDistancesInMeters (H0 := unused_Math)
          (H1 := stub_collaborators unit 1%Q (0, 0)%Q (0, 0)%Q [] (fun _ => inl tt))
          any_line 5 null initial_state)
     = Some [0; 250; 500; 750; 1000]%Q
  /\ option_map (map Qred)
       (sampledDistancesInMeters (H0 := unused_Math)
          (H1 := stub_collaborators unit (1 # 10)%Q (0, 0)%Q (0, 0)%Q [] (fun _ => inl tt))
          any_line 50 (meters 60%Q) initial_state)
     = Some [0; 60; 100]%Q
  /\ sampledDistancesInMeters (H0 := unused_Math)
       (H1 := stub_collaborators unit 1%float (0, 0)%float (0, 0)%float []
                (fun _ => inl tt))
       any_line 5 null initial_state
     = Some [0; 250; 500; 750; 1000]%float
  /\ sampledDistancesInMeters (H0 := unused_Math)
       (H1 := stub_collaborators unit (decimal 1 1) (0, 0)%float (0, 0)%float []
                (fun _ => inl tt))
       any_line 50 (meters 60%float) initial_state
     = Some [0; 60; 100]%float.
Proof.
  split; [|split; [|repeat split; vm_compute; reflexivity]].
  - intros num E N C s lineString numberOfPoints _ _.
    apply planner_refines_spec.
  - intros E C s lineString numberOfPoints minimumMeters Hn _ Hmin.
    now apply planner_in_meters.
Qed.

(** Witness of C1: a line of 0.1 km, 50 points, a minimum of 60 m. *)
Lemma sample_planner_emits_spec_sequence_witness :
  let C := stub_collaborators unit (1 # 10)%Q (0, 0)%Q (0, 0)%Q [] (fun _ => inl tt) in
  let s := {| requiredTilesObjects := []; tilePromises := [];
              minKmBetweenPoints := Some (60 / 1000)%Q |} in
  _getLineStringDistancesToCheck (H1 := C) s any_line 50
  = spec_plan (1 # 10)%Q 50 (Some (60 / 1000)%Q)
  /\ Forall2 Qeq
       (map distanceAlongLine (_getLineStringPoints (H1 := C) s any_line 50))
       (spec_plan ((1 # 10) * 1000)%Q 50 (Some 60%Q)).
Proof.
  intros C s. split.
  - apply (proj1 sample_planner_emits_spec_sequence Q unit JsNumber_Q C s any_line 50%Z);
      [lia | reflexivity].
  - apply (proj1 (proj2 sample_planner_emits_spec_sequence) unit C s any_line 50%Z
             (Some 60%Q)); [lia | reflexivity | constructor; reflexivity].
Defined.

(** *** Order of the emitted distances (exact arithmetic) *)

Section TakeWhile.
Context {A : Type} (keep : A -> bool).

Lemma take_while_Forall (l : list A) :
  Forall (fun a => keep a = true) (take_while keep l).
Proof.
  induction l as [|a l IH]; cbn; [constructor|].
  destruct (keep a) eqn:Ha; constructor; assumption.
Qed.

Lemma take_while_incl (P : A -> Prop) (l : list A) :
  Forall P l -> Forall P (take_while keep l).
Proof.
  induction 1 as [|a l Ha Hl IH]; cbn; [constructor|].
  destruct (keep a); constructor; assumption.
Qed.

Lemma take_while_sorted (R : A -> A -> Prop) (l : list A) :
  StronglySorted R l -> StronglySorted R (take_while keep l).
Proof.
  induction 1 as [|a l Hl IH Ha]; cbn; [constructor|].
  destruct (keep a); constructor; [assumption|].
  now apply take_while_incl.
Qed.

End TakeWhile.

Lemma StronglySorted_snoc {A : Type} (R : A -> A -> Prop) (l : list A) (x : A) :
  StronglySorted R l -> Forall (fun a => R a x) l -> StronglySorted R (l ++ [x]).
Proof.
  induction 1 as [|a l Hl IH Ha]; intros Hx; cbn.
  - repeat constructor.
  - inversion Hx as [|? ? Hax Hlx]; subst.
    constructor; [now apply IH|].
    apply Forall_app; split; [assumption|]. now repeat constructor.
Qed.

Lemma multiples_nonneg (step : Q) (first count : nat) :
  (0 <= step)%Q ->
  Forall (fun d => 0 <= d)%Q
    (map (fun k => step * inject_Z (Z.of_nat k))%Q (seq first count)).
Proof.
  intros Hstep. apply Forall_map, Forall_forall. intros k _.
  apply Qmult_le_0_compat; [assumption|]. apply inject_Z_nonneg. lia.
Qed.

Lemma multiples_sorted (step : Q) (count : nat) :
  (0 <= step)%Q ->
  forall first,
  StronglySorted Qle
    (map (fun k => step * inject_Z (Z.of_nat k))%Q (seq first count)).
Proof.
  intros Hstep. induction count as [|count IH]; intros first; cbn; constructor.
  - apply IH.
  - apply Forall_map, Forall_forall. intros k Hk.
    apply list_elem_of_In, in_seq in Hk.
    rewrite !(Qmult_comm step). apply Qmult_le_compat_r; [|assumption].
    rewrite <- Zle_Qle. lia.
Qed.

Lemma spec_step_nonneg (L : Q) (n : Z) (minimum : option Q) :
  (0 <= L)%Q -> (2 <= n)%Z ->
  (0 <= match minimum with
        | Some m => if Qltb (L / inject_Z (n - 1)) m then m else L / inject_Z (n - 1)
        | None => L / inject_Z (n - 1)
        end)%Q.
Proof.
  intros HL Hn.
  assert (H0 : (0 <= L / inject_Z (n - 1))%Q).
  { apply Qle_shift_div_l.
    - change 0%Q with (inject_Z 0). rewrite <- Zlt_Qlt. lia.
    - now rewrite Qmult_0_l. }
  destruct minimum as [m|]; [|assumption].
  destruct (Qltb _ m) eqn:Hlt; [|assumption].
  apply Qltb_lt in Hlt. apply Qlt_le_weak. eapply Qle_lt_trans; eassumption.
Qed.

Lemma spec_plan_shape (L : Q) (n : Z) (minimum : option Q) :
  (0 <= L)%Q -> (2 <= n)%Z ->
  let distances := spec_plan L n minimum in
  Forall (fun d => 0 <= d)%Q distances
  /\ StronglySorted Qle distances
  /\ Forall (fun d => d <= L)%Q distances
  /\ last distances = Some L.
Proof.
  intros HL Hn. unfold spec_plan. js_Q.
  pose proof (spec_step_nonneg L n minimum HL Hn) as Hstep.
  set (step := match minimum with Some _ => _ | None => _ end) in *.
  assert (Hbelow : Forall (fun d => d <= L)%Q
            (take_while (fun d => Qltb d L)
               (map (fun k => step * inject_Z (Z.of_nat k))%Q (seq 0 (Z.to_nat (n - 1)))))).
  { eapply Forall_impl; [apply take_while_Forall|].
    cbn. intros d Hd. apply Qltb_lt in Hd. now apply Qlt_le_weak. }
  repeat split.
  - apply Forall_app; split.
    + apply take_while_incl. now apply multiples_nonneg.
    + now repeat constructor.
  - apply StronglySorted_snoc; [|assumption].
    apply take_while_sorted. now apply multiples_sorted.
  - apply Forall_app; split; [assumption|].
    repeat constructor. apply Qle_refl.
  - apply last_snoc.
Qed.

Lemma StronglySorted_map_monotone {A B : Type} (R : A -> A -> Prop) (R' : B -> B -> Prop)
    (f : A -> B) (l : list A) :
  (forall a b, R a b -> R' (f a) (f b)) ->
  StronglySorted R l -> StronglySorted R' (map f l).
Proof.
  intros Hf. induction 1 as [|a l Hl IH Ha]; cbn; constructor; [assumption|].
  apply Forall_map. eapply Forall_impl; [exact Ha|]. cbn. auto.
Qed.

Lemma last_map {A B : Type} (f : A -> B) (l : list A) :
  last (map f l) = option_map f (last l).
Proof.
  induction l as [|a [|b l] IH]; [reflexivity..|].
  exact IH.
Qed.

(** C2. Whatever number type the engine computes with, the planner emits
    distances that the loop guard found strictly below the path length [L],
    followed by [L] itself: the last distance is [L] exactly.  In exact
    arithmetic, for every path (of length [0 <= L], as [length] returns),
    every [numberOfPoints >= 2] and every minimum spacing in effect (none,
    or any value the auto or explicit policy produced), the emitted
    distances are non-negative, non-decreasing and at most [L], and the last
    one is [L]; the same holds, in meters, of the [distanceAlongLine]
    attached to the sampled points. *)
Theorem sample_distances_ordered_and_bounded :
  (forall (num E : Type) (N : JsNumber num) (C : Collaborators num E)
          (s : ModuleState num) (lineString : LineString num) (numberOfPoints : Z),
      exists emitted,
        _getLineStringDistancesToCheck s lineString numberOfPoints
        = emitted ++ [turf_length lineString]
        /\ Forall (fun d => (d <? turf_length lineString)%js = true) emitted)
  /\ (forall (E : Type) (C : Collaborators Q E) (s : ModuleState Q)
             (lineString : LineString Q) (numberOfPoints : Z),
         (2 <= numberOfPoints)%Z ->
         (0 <= turf_length lineString)%Q ->
         let L := turf_length lineString in
         let distances := _getLineStringDistancesToCheck s lineString numberOfPoints in
         let inMeters :=
           map distanceAlongLine (_getLineStringPoints s lineString numberOfPoints) in
         (Forall (fun d => 0 <= d)%Q distances
          /\ StronglySorted Qle distances
          /\ Forall (fun d => d <= L)%Q distances
          /\ last distances = Some L)
         /\ (Forall (fun d => 0 <= d)%Q inMeters
             /\ StronglySorted Qle inMeters
             /\ Forall (fun d => d <= L * 1000)%Q inMeters
             /\ last inMeters = Some (L * 1000)%Q)).
Proof.
  split.
  { intros num E N C s lineString numberOfPoints.
    rewrite planner_refines_spec. unfold spec_plan.
    eexists. split; [reflexivity|]. apply take_while_Forall. }
  intros E C s lineString numberOfPoints Hn HL L distances inMeters.
  assert (Hkm : Forall (fun d => 0 <= d)%Q distances
                /\ StronglySorted Qle distances
                /\ Forall (fun d => d <= L)%Q distances
                /\ last distances = Some L).
  { subst distances. rewrite planner_refines_spec. now apply spec_plan_shape. }
  split; [exact Hkm|].
  destruct Hkm as (Hpos & Hsorted & Hbound & Hlast).
  assert (Hmeters : inMeters = map (fun d => d * 1000)%Q distances).
  { subst inMeters distances. unfold _getLineStringPoints, _getPointsToCheck.
    rewrite map_map. reflexivity. }
  rewrite Hmeters. repeat split.
  - apply Forall_map. eapply Forall_impl; [exact Hpos|].
    cbn. intros d Hd. apply Qmult_le_0_compat; [assumption|discriminate].
  - apply (StronglySorted_map_monotone Qle Qle); [|assumption].
    intros a b Hab. apply Qmult_le_compat_r; [assumption|discriminate].
  - apply Forall_map. eapply Forall_impl; [exact Hbound|].
    cbn. intros d Hd. apply Qmult_le_compat_r; [assumption|discriminate].
  - rewrite last_map, Hlast. reflexivity.
Qed.

(** Witness of C2: the same line and minimum. *)
Lemma sample_distances_ordered_and_bounded_witness :
  let C := stub_collaborators unit (1 # 10)%Q (0, 0)%Q (0, 0)%Q [] (fun _ => inl tt) in
  let s := {| requiredTilesObjects := []; tilePromises := [];
              minKmBetweenPoints := Some (60 / 1000)%Q |} in
  let distances := _getLineStringDistancesToCheck (H1 := C) s any_line 50 in
  let inMeters := map distanceAlongLine (_getLineStringPoints (H1 := C) s any_line 50) in
  (Forall (fun d => 0 <= d)%Q distances
   /\ StronglySorted Qle distances
   /\ Forall (fun d => d <= 1 # 10)%Q distances
   /\ last distances = Some (1 # 10)%Q)
  /\ (Forall (fun d => 0 <= d)%Q inMeters
      /\ StronglySorted Qle inMeters
      /\ Forall (fun d => d <= (1 # 10) * 1000)%Q inMeters
      /\ last inMeters = Some ((1 # 10) * 1000)%Q).
Proof.
  intros C s.
  apply (proj2 sample_distances_ordered_and_bounded unit C s any_line 50%Z);
    [lia | discriminate].
Defined.

(** ** The elevation decoder *)

Lemma decode_linear (red green blue : Z) :
  (_calculateHeightFromPixel (inject_Z red, inject_Z green, inject_Z blue)
   == -10000 + inject_Z (rgb24 red green blue) * 0.1)%Q.
Proof.
  unfold _calculateHeightFromPixel, rgb24. js_Q.
  rewrite !inject_Z_plus, !inject_Z_mult.
  change (inject_Z (-10000)) with (-10000)%Q.
  change (inject_Z 256) with 256%Q. change (inject_Z 65536) with 65536%Q.
  change (inject_Z 1 / inject_Z (10 ^ 1))%Q with (1 # 10)%Q.
  ring.
Qed.

Lemma decode_monotone (r g b r' g' b' : Z) :
  (rgb24 r g b <= rgb24 r' g' b')%Z ->
  (_calculateHeightFromPixel (inject_Z r, inject_Z g, inject_Z b)
   <= _calculateHeightFromPixel (inject_Z r', inject_Z g', inject_Z b'))%Q.
Proof.
  intros Hle. rewrite !decode_linear.
  apply Qplus_le_r. apply Qmult_le_compat_r; [|discriminate].
  now rewrite <- Zle_Qle.
Qed.

(** C3. For integer channels in [0, 255] the decoder returns
    [-10000 + (red * 65536 + green * 256 + blue) * 0.1]; it is a total
    function, [decode(0,0,0) = -10000.0] and
    [decode(255,255,255) = 1667721.5] (also as binary64 values), and it is
    non-decreasing in the 24-bit integer [rgb24 red green blue]. *)
Theorem decoder_is_linear_in_rgb24 :
  forall red green blue : Z,
    (0 <= red <= 255)%Z -> (0 <= green <= 255)%Z -> (0 <= blue <= 255)%Z ->
    (_calculateHeightFromPixel (inject_Z red, inject_Z green, inject_Z blue)
     == -10000 + inject_Z (red * 65536 + green * 256 + blue) * 0.1)%Q
    /\ (_calculateHeightFromPixel (0, 0, 0) == -10000.0)%Q
    /\ (_calculateHeightFromPixel (255, 255, 255) == 1667721.5)%Q
    /\ _calculateHeightFromPixel (num := float) (0, 0, 0)%float = (-10000)%float
    /\ _calculateHeightFromPixel (num := float) (255, 255, 255)%float = 1667721.5%float
    /\ (forall red' green' blue' : Z,
          (0 <= red' <= 255)%Z -> (0 <= green' <= 255)%Z -> (0 <= blue' <= 255)%Z ->
          (rgb24 red green blue <= rgb24 red' green' blue')%Z ->
          (_calculateHeightFromPixel (inject_Z red, inject_Z green, inject_Z blue)
           <= _calculateHeightFromPixel
                (inject_Z red', inject_Z green', inject_Z blue'))%Q).
Proof.
  intros red green blue _ _ _.
  split; [apply decode_linear|].
  do 4 (split; [reflexivity|]).
  intros red' green' blue' _ _ _. apply decode_monotone.
Qed.

(** Witness of C3: the color (10, 0, 0). *)
Lemma decoder_is_linear_in_rgb24_witness :
  (_calculateHeightFromPixel (inject_Z 10, inject_Z 0, inject_Z 0)
   == -10000 + inject_Z (10 * 65536 + 0 * 256 + 0) * 0.1)%Q.
Proof.
  apply (decoder_is_linear_in_rgb24 10 0 0); lia.
Defined.

(** ** The pipeline *)

Section PipelineFacts.
Context {num E : Type} `{JsNumber num} `{JsMath num} `{Collaborators num E}.
Local Open Scope js_scope.

(** *** The required tiles and their requests *)

Lemma requiredTiles_forEach_state (token : string) (tiles : list (Z * Z * Z)) :
  forall (index : nat) (s : ModuleState num),
    requiredTiles_forEach token tiles index s =
    {| requiredTilesObjects :=
         requiredTilesObjects s ++ map (fun tile => tileObject_of tile None) tiles;
       tilePromises :=
         tilePromises s ++
         imap (fun k tile => {| request := tileRequest_of token tile;
                                requiredTilesObjectsIndex := index + k |}) tiles;
       minKmBetweenPoints := minKmBetweenPoints s |}.
Proof.
  induction tiles as [|[[x y] z] tiles IH]; intros index s.
  - cbn. rewrite !app_nil_r. now destruct s.
  - cbn [requiredTiles_forEach]. rewrite IH. cbn.
    rewrite <- !app_assoc. cbn. rewrite Nat.add_0_r.
    do 3 f_equal. apply imap_ext. intros k tile _. cbn. do 2 f_equal. lia.
Qed.


(** *** The executor *)

Lemma planner_reads_minKm_only (s s' : ModuleState num) (lineString : LineString num)
    (numberOfPoints : Z) :
  minKmBetweenPoints s = minKmBetweenPoints s' ->
  _getLineStringPoints s lineString numberOfPoints =
  _getLineStringPoints s' lineString numberOfPoints.
Proof.
  intros Heq. unfold _getLineStringPoints, _getLineStringDistancesToCheck.
  now rewrite Heq.
Qed.

Lemma executor_spec (lineString : LineString num) (numberOfPoints : Z)
    (token : string) (minMeters : MinMeters num) (s : ModuleState num) :
  executor lineString numberOfPoints token minMeters s =
  match effectiveMinKm (E := E) lineString minMeters with
  | inl error =>
      (inl error,
       {| requiredTilesObjects := []; tilePromises := [];
          minKmBetweenPoints := minKmBetweenPoints s |})
  | inr minKm =>
      (inr (pointsToCheck_of lineString numberOfPoints minKm),
       state_after token (TileCover_tiles lineString ZOOM_LEVEL ZOOM_LEVEL) minKm [])
  end.
Proof.
  unfold executor. change (match minMeters with
                           | undefined => _ | null => _ | meters m => _ end)
    with (effectiveMinKm (E := E) lineString minMeters).
  destruct (effectiveMinKm (E := E) lineString minMeters) as [error|minKm]; [reflexivity|].
  unfold _getTileArrayFromLineString. rewrite requiredTiles_forEach_state.
  cbn [requiredTilesObjects tilePromises minKmBetweenPoints app].
  unfold state_after, pointsToCheck_of. f_equal. f_equal.
  rewrite <- (imap_const (fun tile => tileObject_of tile None)).
  apply imap_ext. intros k tile _. cbn. reflexivity.
Qed.

(** *** The tile promises *)

Lemma bool_decide_cons_ne (j k : nat) (done : list nat) :
  j <> k -> bool_decide (j ∈ k :: done) = bool_decide (j ∈ done).
Proof.
  intros Hne. apply bool_decide_ext. rewrite elem_of_cons. intuition congruence.
Qed.

Section Settling.
Variables (token : string) (tiles : list (Z * Z * Z)) (minKm : option num).

Lemma state_after_lookup (done : list nat) (k : nat) :
  requiredTilesObjects (state_after token tiles minKm done) !! k =
  (fun tile => tileObject_of tile
                 (if bool_decide (k ∈ done) then fetched token tile else None))
    <$> tiles !! k.
Proof. cbn. apply list_lookup_imap. Qed.

Lemma promise_lookup (done : list nat) (k : nat) :
  tilePromises (state_after token tiles minKm done) !! k =
  (fun tile => {| request := tileRequest_of token tile;
                  requiredTilesObjectsIndex := k |}) <$> tiles !! k.
Proof. cbn. apply list_lookup_imap. Qed.

Lemma state_after_ext (done done' : list nat) :
  (forall k tile, tiles !! k = Some tile ->
     (if bool_decide (k ∈ done) then fetched token tile else None) =
     (if bool_decide (k ∈ done') then fetched token tile else None)) ->
  state_after token tiles minKm done = state_after token tiles minKm done'.
Proof.
  intros Hext. unfold state_after. f_equal.
  apply imap_ext. intros k tile Hk. cbn. f_equal. now apply Hext.
Qed.

Lemma settle_spec (done : list nat) (k : nat) (tile : Z * Z * Z) :
  tiles !! k = Some tile ->
  settle {| request := tileRequest_of token tile; requiredTilesObjectsIndex := k |}
         (state_after token tiles minKm done) =
  (match getPixels (tileRequest_of token tile) with
   | inl error => Some (GetPixelsError error)
   | inr _ => None
   end,
   state_after token tiles minKm (k :: done)).
Proof.
  intros Hk. unfold settle. cbn [request requiredTilesObjectsIndex].
  destruct (getPixels (tileRequest_of token tile)) as [error|pixels] eqn:Hfetch.
  - f_equal. apply state_after_ext. intros j tile' Hj.
    destruct (decide (j = k)) as [->|Hne].
    + assert (tile' = tile) by congruence. subst tile'.
      unfold fetched. rewrite Hfetch. now repeat case_bool_decide.
    + now rewrite bool_decide_cons_ne.
  - rewrite state_after_lookup, Hk. cbn [fmap option_fmap option_map].
    f_equal. unfold state_after at 2.
    cbn [requiredTilesObjects tilePromises minKmBetweenPoints].
    unfold state_after. f_equal.
    apply list_eq. intros j.
    rewrite list_lookup_insert. cbn [requiredTilesObjects].
    rewrite !list_lookup_imap, length_imap.
    destruct (decide (k = j ∧ k < length tiles)) as [[-> Hlt]|Hne].
    + rewrite Hk. cbn. rewrite (bool_decide_eq_true_2 (j ∈ j :: done)) by apply list_elem_of_here.
      unfold fetched. rewrite Hfetch. now destruct tile as [[x y] z].
    + destruct (tiles !! j) as [tile'|] eqn:Hj; [|reflexivity]. cbn.
      assert (k <> j).
      { intros ->. apply Hne. split; [reflexivity|]. eapply lookup_lt_Some, Hk. }
      do 2 f_equal. now rewrite bool_decide_cons_ne.
Qed.

Lemma settle_in_order_spec (schedule : list nat) :
  forall (done : list nat) (rejection : option (JsError E)),
    settle_in_order (tilePromises (state_after token tiles minKm []))
      schedule rejection (state_after token tiles minKm done) =
    (match rejection with
     | Some error => Some error
     | None => GetPixelsError <$> first_fetch_error token tiles schedule
     end,
     state_after token tiles minKm (rev schedule ++ done)).
Proof.
  induction schedule as [|k later IH]; intros done rejection.
  - cbn. now destruct rejection.
  - cbn [settle_in_order first_fetch_error rev].
    rewrite promise_lookup.
    destruct (tiles !! k) as [tile|] eqn:Hk; cbn [fmap option_fmap option_map].
    + rewrite settle_spec by assumption. rewrite IH. rewrite <- app_assoc. cbn [app].
      f_equal.
      destruct rejection as [error|]; [reflexivity|].
      now destruct (getPixels (tileRequest_of token tile)).
    + rewrite IH. f_equal. rewrite <- app_assoc. cbn [app].
      apply state_after_ext. intros j tile Hj.
      assert (j <> k) by congruence.
      rewrite (bool_decide_ext (j ∈ rev later ++ k :: done) (j ∈ rev later ++ done));
        [reflexivity|]. rewrite !elem_of_app, elem_of_cons. intuition congruence.
Qed.

Lemma all_settled_complete (schedule : list nat) (done : list nat) :
  complete_schedule schedule (length tiles) ->
  all_settled (tilePromises (state_after token tiles minKm done)) schedule = true.
Proof.
  intros Hperm. unfold all_settled. cbn [tilePromises state_after].
  rewrite length_imap. apply forallb_forall. intros k Hk.
  apply existsb_exists. exists k. split; [|apply Nat.eqb_refl].
  eapply Permutation_in; [symmetry; exact Hperm|exact Hk].
Qed.

Lemma state_after_complete (schedule : list nat) :
  complete_schedule schedule (length tiles) ->
  state_after token tiles minKm (rev schedule ++ []) =
  {| requiredTilesObjects := map (fun tile => tileObject_of tile (fetched token tile)) tiles;
     tilePromises := tilePromises (state_after token tiles minKm []);
     minKmBetweenPoints := minKm |}.
Proof.
  intros Hperm. unfold state_after. cbn [tilePromises]. f_equal.
  rewrite <- (imap_const (fun tile => tileObject_of tile (fetched token tile))).
  apply imap_ext. intros k tile Hk. cbn.
  rewrite bool_decide_eq_true_2; [reflexivity|].
  rewrite app_nil_r. apply list_elem_of_In, in_rev. rewrite rev_involutive.
  eapply Permutation_in; [symmetry; exact Hperm|].
  apply in_seq. split; [lia|]. cbn. eapply lookup_lt_Some, Hk.
Qed.

End Settling.

(** *** The whole run *)

(** A run whose requests all settle, in closed form: the exception of the
    executor; or else the first request failure; or else the outcome of the
    [then] callback on the fetched tiles. *)
Theorem run_spec (lineString : LineString num) (numberOfPoints : Z) (token : string)
    (minMeters : MinMeters num) (schedule : list nat) (s : ModuleState num) :
  let tiles := TileCover_tiles lineString ZOOM_LEVEL ZOOM_LEVEL in
  complete_schedule schedule (length tiles) ->
  getLineStringElevationPoints lineString numberOfPoints token minMeters schedule s =
  match effectiveMinKm (E := E) lineString minMeters with
  | inl error =>
      (Rejected error,
       {| requiredTilesObjects := []; tilePromises := [];
          minKmBetweenPoints := minKmBetweenPoints s |})
  | inr minKm =>
      (match first_fetch_error token tiles schedule with
       | Some error => Rejected (GetPixelsError error)
       | None =>
           match _addHeightToPointsGeoJSON (final_state token tiles minKm)
                   (pointsToCheck_of lineString numberOfPoints minKm) with
           | inl error => Rejected error
           | inr points => Resolved (_getFormattedPointsResult points)
           end
       end,
       final_state token tiles minKm)
  end.
Proof.
  intros tiles Hcomplete. unfold getLineStringElevationPoints.
  rewrite executor_spec.
  destruct (effectiveMinKm lineString minMeters) as [error|minKm]; [reflexivity|].
  fold tiles. rewrite settle_in_order_spec.
  rewrite state_after_complete by assumption. fold (final_state token tiles minKm).
  destruct (first_fetch_error token tiles schedule) as [error|];
    cbn [fmap option_fmap option_map]; [reflexivity|].
  rewrite all_settled_complete by assumption.
  now destruct (_addHeightToPointsGeoJSON _ _).
Qed.

(** The outcome of a run does not depend on the state the module was left
    in: the executor overwrites the three variables before reading them. *)
Lemma run_outcome_independent_of_state (lineString : LineString num)
    (numberOfPoints : Z) (token : string) (minMeters : MinMeters num)
    (schedule : list nat) (s s' : ModuleState num) :
  fst (getLineStringElevationPoints lineString numberOfPoints token minMeters schedule s) =
  fst (getLineStringElevationPoints lineString numberOfPoints token minMeters schedule s').
Proof.
  unfold getLineStringElevationPoints. rewrite !executor_spec.
  destruct (effectiveMinKm lineString minMeters) as [error|minKm]; reflexivity.
Qed.

(** The module state a run leaves, whether or not every request settled. *)
Lemma run_final_state (lineString : LineString num) (numberOfPoints : Z)
    (token : string) (minMeters : MinMeters num) (schedule : list nat)
    (s : ModuleState num) :
  snd (getLineStringElevationPoints lineString numberOfPoints token minMeters schedule s) =
  match effectiveMinKm (E := E) lineString minMeters with
  | inl _ =>
      {| requiredTilesObjects := []; tilePromises := [];
         minKmBetweenPoints := minKmBetweenPoints s |}
  | inr minKm =>
      state_after token (TileCover_tiles lineString ZOOM_LEVEL ZOOM_LEVEL) minKm
        (rev schedule ++ [])
  end.
Proof.
  unfold getLineStringElevationPoints. rewrite executor_spec.
  destruct (effectiveMinKm lineString minMeters) as [error|minKm]; [reflexivity|].
  rewrite settle_in_order_spec.
  destruct (first_fetch_error _ _ _); cbn [fmap option_fmap option_map snd];
    [reflexivity|].
  destruct (all_settled _ _); [|reflexivity].
  destruct (_addHeightToPointsGeoJSON _ _); reflexivity.
Qed.

(** *** The [then] callback *)


Lemma addHeight_uncovered (s : ModuleState num) (points : list (PointFeature num))
    (point : PointFeature num) (pointSM : SmCoordinates num) :
  In point points ->
  smCoordinates point = Some pointSM ->
  matchingTile_of pointSM (requiredTilesObjects s) = None ->
  exists error : JsError E, _addHeightToPointsGeoJSON s points = inl error.
Proof.
  intros Hin Hsm Hnone. induction points as [|p points IH]; [destruct Hin|].
  cbn. destruct (addHeightToPoint s p) as [error|p'] eqn:Hp; [eauto|].
  destruct Hin as [->|Hin].
  - unfold addHeightToPoint in Hp. rewrite Hsm, Hnone in Hp. discriminate.
  - destruct (IH Hin) as [error ->]. eauto.
Qed.

Lemma matchingTile_of_None (pointSM : SmCoordinates num) (tiles : list (TileObject num)) :
  matchingTile_of pointSM tiles = None <->
  Forall (fun tile => _pointIsWithinTile pointSM (tile_smCoordinates tile) = false) tiles.
Proof.
  unfold matchingTile_of. induction tiles as [|tile tiles IH]; cbn.
  - split; [constructor|reflexivity].
  - destruct (_pointIsWithinTile pointSM (tile_smCoordinates tile)) eqn:Hin; cbn.
    + split; [discriminate|]. intros Hall. inversion Hall; congruence.
    + rewrite IH. split; [now constructor|]. intros Hall. now inversion Hall.
Qed.

(** *** Request failures *)

Lemma first_fetch_error_Some (token : string) (tiles : list (Z * Z * Z))
    (schedule : list nat) (error : E) :
  first_fetch_error token tiles schedule = Some error ->
  exists k tile,
    In k schedule /\ tiles !! k = Some tile
    /\ getPixels (tileRequest_of token tile) = inl error.
Proof.
  induction schedule as [|k later IH]; cbn; [discriminate|].
  destruct (tiles !! k) as [tile|] eqn:Hk.
  - destruct (getPixels (tileRequest_of token tile)) as [error'|pixels] eqn:Hfetch.
    + intros [= ->]. exists k, tile. auto.
    + intros (k' & tile' & Hin & Hrest)%IH. exists k', tile'. auto.
  - intros (k' & tile' & Hin & Hrest)%IH. exists k', tile'. auto.
Qed.

Lemma first_fetch_error_None (token : string) (tiles : list (Z * Z * Z))
    (schedule : list nat) :
  first_fetch_error token tiles schedule = None ->
  forall k tile, In k schedule -> tiles !! k = Some tile ->
    exists pixels, getPixels (tileRequest_of token tile) = inr pixels.
Proof.
  induction schedule as [|k later IH]; cbn; [intros _ ? ? []|].
  intros Hnone j tile [<-|Hin] Hj.
  - rewrite Hj in Hnone.
    destruct (getPixels (tileRequest_of token tile)) as [error|pixels]; [discriminate|].
    eauto.
  - apply IH with (k := j); [|assumption..].
    destruct (tiles !! k) as [tile'|]; [|assumption].
    now destruct (getPixels (tileRequest_of token tile')).
Qed.

Lemma complete_schedule_In (schedule : list nat) (requests k : nat) :
  complete_schedule schedule requests -> k < requests -> In k schedule.
Proof.
  intros Hperm Hk. eapply Permutation_in; [symmetry; exact Hperm|].
  apply in_seq. lia.
Qed.

Lemma all_fetched (token : string) (tiles : list (Z * Z * Z)) (schedule : list nat) :
  complete_schedule schedule (length tiles) ->
  first_fetch_error token tiles schedule = None ->
  Forall (fun tile => is_Some (fetched token tile)) tiles.
Proof.
  intros Hcomplete Hnone. apply Forall_forall. intros tile Hin.
  apply list_elem_of_lookup in Hin as [k Hk].
  destruct (first_fetch_error_None _ _ _ Hnone k tile) as [pixels Hfetch];
    [|assumption|].
  - eapply complete_schedule_In; [eassumption|]. eapply lookup_lt_Some, Hk.
  - unfold fetched. rewrite Hfetch. eauto.
Qed.

(** With every tile fetched and every point projected, the only exception
    the [then] callback can raise is the one on a point that no tile
    matches. *)
Lemma addHeight_error (s : ModuleState num) (points : list (PointFeature num))
    (error : JsError E) :
  Forall (fun tile => is_Some (tileData tile)) (requiredTilesObjects s) ->
  Forall (fun point => is_Some (smCoordinates point)) points ->
  _addHeightToPointsGeoJSON s points = inl error ->
  error = TypeError matchingTile.
Proof.
  intros Htiles Hpoints. induction Hpoints as [|point points [pointSM Hsm] _ IH]; cbn;
    [discriminate|].
  destruct (addHeightToPoint s point) as [error'|point'] eqn:Hpoint.
  - intros [= <-]. unfold addHeightToPoint in Hpoint. rewrite Hsm in Hpoint.
    unfold matchingTile_of in Hpoint.
    destruct (head _) as [tile|] eqn:Hhead; [|congruence].
    apply head_Some_elem_of, list_elem_of_In, filter_In in Hhead as [Hin _].
    rewrite Forall_forall in Htiles. apply list_elem_of_In in Hin.
    destruct (Htiles _ Hin) as [pixels Hdata].
    destruct (relativeToTile pointSM tile). rewrite Hdata in Hpoint. discriminate.
  - destruct (_addHeightToPointsGeoJSON s points) as [error'|rest]; [|discriminate].
    intros [= <-]. now apply IH.
Qed.

Lemma pointsToCheck_projected (lineString : LineString num) (numberOfPoints : Z)
    (minKm : option num) :
  Forall (fun point => is_Some (smCoordinates point))
    (pointsToCheck_of lineString numberOfPoints minKm).
Proof.
  unfold pointsToCheck_of, _addXYZCoordinatesToPointsGeoJSON.
  apply Forall_map, Forall_forall. intros point _. cbn. eauto.
Qed.

Lemma tileObject_of_smCoordinates (tile : Z * Z * Z) (data data' : option (Pixels num)) :
  tile_smCoordinates (tileObject_of tile data) =
  tile_smCoordinates (tileObject_of tile data').
Proof. now destruct tile as [[x y] z]. Qed.

Lemma tileObject_of_tileData (tile : Z * Z * Z) (data : option (Pixels num)) :
  tileData (tileObject_of tile data) = data.
Proof. now destruct tile as [[x y] z]. Qed.

(** *** What the executor returns *)

Lemma executor_returns (lineString : LineString num) (numberOfPoints : Z)
    (token : string) (minMeters : MinMeters num) (s s1 : ModuleState num)
    (pointsToCheck : list (PointFeature num)) :
  executor (E := E) lineString numberOfPoints token minMeters s = (inr pointsToCheck, s1) ->
  exists minKm,
    effectiveMinKm (E := E) lineString minMeters = inr minKm
    /\ pointsToCheck = pointsToCheck_of lineString numberOfPoints minKm
    /\ s1 = state_after token (TileCover_tiles lineString ZOOM_LEVEL ZOOM_LEVEL) minKm [].
Proof.
  rewrite executor_spec.
  destruct (effectiveMinKm lineString minMeters) as [error|minKm]; [discriminate|].
  intros [= <- <-]. eauto.
Qed.

Lemma executor_throws (lineString : LineString num) (numberOfPoints : Z)
    (token : string) (minMeters : MinMeters num) (s s1 : ModuleState num)
    (error : JsError E) :
  executor lineString numberOfPoints token minMeters s = (inl error, s1) ->
  effectiveMinKm lineString minMeters = inl error
  /\ tilePromises s1 = [] /\ requiredTilesObjects s1 = [].
Proof.
  rewrite executor_spec.
  destruct (effectiveMinKm lineString minMeters) as [error'|minKm]; [|discriminate].
  intros [= <- <-]. auto.
Qed.

Lemma In_tilePromises (token : string) (tiles : list (Z * Z * Z)) (minKm : option num)
    (done : list nat) (promise : TilePromise) :
  In promise (tilePromises (state_after token tiles minKm done)) <->
  exists k tile,
    tiles !! k = Some tile
    /\ promise = {| request := tileRequest_of token tile;
                    requiredTilesObjectsIndex := k |}.
Proof.
  rewrite <- list_elem_of_In. cbn [tilePromises state_after]. split.
  - intros (k & tile & -> & Hk)%elem_of_lookup_imap_1. eauto.
  - intros (k & tile & Hk & ->).
    apply list_elem_of_lookup. exists k. rewrite list_lookup_imap, Hk. reflexivity.
Qed.

Lemma In_requiredTilesObjects (token : string) (tiles : list (Z * Z * Z))
    (minKm : option num) (tile : Z * Z * Z) :
  In tile tiles ->
  In (tileObject_of tile None)
     (requiredTilesObjects (state_after token tiles minKm [])).
Proof.
  intros (k & Hk)%list_elem_of_In%list_elem_of_lookup.
  apply list_elem_of_In, list_elem_of_lookup. exists k.
  rewrite state_after_lookup, Hk. reflexivity.
Qed.

Lemma first_fetch_error_all_ok (token : string) (tiles : list (Z * Z * Z))
    (schedule : list nat) :
  (forall k tile, tiles !! k = Some tile ->
     exists pixels, getPixels (tileRequest_of token tile) = inr pixels) ->
  first_fetch_error token tiles schedule = None.
Proof.
  intros Hok. induction schedule as [|k later IH]; cbn; [reflexivity|].
  destruct (tiles !! k) as [tile|] eqn:Hk; [|assumption].
  destruct (Hok k tile Hk) as [pixels ->]. assumption.
Qed.


(** C8. When the executor did not throw and the pixel coordinates of some
    sampled point lie within the bounding box of none of the entries of
    [requiredTilesObjects]: the promise is never resolved, so no collection
    is produced; and once every tile request has settled it is rejected,
    with the [TypeError] raised on the [undefined] matching tile when no
    request failed. *)
Theorem uncovered_point_rejects_run (lineString : LineString num)
    (numberOfPoints : Z) (token : string) (minMeters : MinMeters num)
    (schedule : list nat) (s s1 : ModuleState num)
    (pointsToCheck : list (PointFeature num))
    (point : PointFeature num) (pointSM : SmCoordinates num) :
  let outcome :=
    fst (getLineStringElevationPoints lineString numberOfPoints token minMeters
           schedule s) in
  executor (E := E) lineString numberOfPoints token minMeters s = (inr pointsToCheck, s1) ->
  In point pointsToCheck ->
  smCoordinates point = Some pointSM ->
  (forall tile, In tile (requiredTilesObjects s1) ->
     _pointIsWithinTile pointSM (tile_smCoordinates tile) = false) ->
  (forall featureCollection, outcome <> Resolved featureCollection)
  /\ (complete_schedule schedule (length (tilePromises s1)) ->
      exists error,
        outcome = Rejected error
        /\ ((forall promise, In promise (tilePromises s1) ->
               exists pixels, getPixels (request promise) = inr pixels) ->
            error = TypeError matchingTile)).
Proof.
  intros outcome Hstarted Hpoint Hsm Houtside. subst outcome.
  destruct (executor_returns _ _ _ _ _ _ _ Hstarted) as (minKm & HminKm & -> & ->).
  set (tiles := TileCover_tiles lineString ZOOM_LEVEL ZOOM_LEVEL) in *.
  assert (Hnowhere : forall tile, In tile tiles ->
            _pointIsWithinTile pointSM (tile_smCoordinates (tileObject_of tile None))
            = false).
  { intros tile Hin. apply Houtside. now apply In_requiredTilesObjects. }
  split.
  { intros featureCollection. unfold getLineStringElevationPoints.
    rewrite Hstarted, settle_in_order_spec.
    destruct (first_fetch_error token tiles schedule);
      cbn [fmap option_fmap option_map fst]; [discriminate|].
    destruct (all_settled _ _); [|discriminate].
    destruct (addHeight_uncovered
                (state_after token tiles minKm (rev schedule ++ []))
                (pointsToCheck_of lineString numberOfPoints minKm) point pointSM)
      as [error ->]; [assumption..| |discriminate].
    apply matchingTile_of_None, Forall_forall.
    intros object (k & tile & -> & Hk)%elem_of_lookup_imap_1.
    rewrite (tileObject_of_smCoordinates tile _ None).
    apply Hnowhere, list_elem_of_In, list_elem_of_lookup. eauto. }
  intros Hcomplete.
  cbn [tilePromises state_after] in Hcomplete. rewrite length_imap in Hcomplete.
  rewrite (run_spec lineString numberOfPoints token minMeters schedule s Hcomplete).
  fold tiles. rewrite HminKm. cbn [fst].
  destruct (first_fetch_error token tiles schedule) as [error|] eqn:Hfirst.
  { exists (GetPixelsError error). split; [reflexivity|]. intros Hok. exfalso.
    destruct (first_fetch_error_Some _ _ _ _ Hfirst) as (k & tile & _ & Hk & Hfetch).
    destruct (Hok {| request := tileRequest_of token tile;
                     requiredTilesObjectsIndex := k |}) as [pixels Hpixels].
    - apply In_tilePromises. eauto.
    - cbn [request] in Hpixels. congruence. }
  destruct (addHeight_uncovered (final_state token tiles minKm)
              (pointsToCheck_of lineString numberOfPoints minKm) point pointSM)
    as [error Herror]; [assumption..| |].
  { apply matchingTile_of_None. cbn. apply Forall_map, Forall_forall.
    intros tile Hin%list_elem_of_In. cbn.
    rewrite (tileObject_of_smCoordinates tile _ None). now apply Hnowhere. }
  rewrite Herror. exists error. split; [reflexivity|]. intros _.
  eapply addHeight_error; [| |exact Herror].
  - cbn. apply Forall_map.
    eapply Forall_impl; [now apply (all_fetched token tiles schedule)|].
    cbn. intros tile Hfetched. now rewrite tileObject_of_tileData.
  - apply pointsToCheck_projected.
Qed.

(** C10. Every call overwrites [requiredTilesObjects] and [tilePromises]
    with empty arrays and assigns [minKmBetweenPoints] before reading any of
    them: what the executor returns, the arrays it leaves and, unless it
    threw, the minimum it leaves are the same from every starting state;
    hence the outcome of a call does not depend on the state it starts from,
    and a second call with the same arguments and the same answers from the
    collaborators, started in the state the first one left, has the same
    outcome. *)
Theorem run_does_not_depend_on_earlier_runs (lineString : LineString num)
    (numberOfPoints : Z) (token : string) (minMeters : MinMeters num)
    (schedule : list nat) (s s' : ModuleState num) :
  let run := getLineStringElevationPoints lineString numberOfPoints token minMeters
               schedule in
  let started := executor (E := E) lineString numberOfPoints token minMeters in
  fst (started s) = fst (started s')
  /\ requiredTilesObjects (snd (started s)) = requiredTilesObjects (snd (started s'))
  /\ tilePromises (snd (started s)) = tilePromises (snd (started s'))
  /\ (forall pointsToCheck, fst (started s) = inr pointsToCheck ->
        minKmBetweenPoints (snd (started s)) = minKmBetweenPoints (snd (started s')))
  /\ fst (run s) = fst (run s')
  /\ fst (run (snd (run s))) = fst (run s).
Proof.
  intros run started. subst run started. rewrite !executor_spec.
  repeat split.
  - now destruct (effectiveMinKm lineString minMeters).
  - now destruct (effectiveMinKm lineString minMeters).
  - now destruct (effectiveMinKm lineString minMeters).
  - destruct (effectiveMinKm lineString minMeters); [discriminate|reflexivity].
  - apply run_outcome_independent_of_state.
  - apply run_outcome_independent_of_state.
Qed.


End PipelineFacts.

(** ** Coverage (exact arithmetic) *)

Lemma pointIsWithinTile_iff (pointSM tileSM : SmCoordinates Q) :
  _pointIsWithinTile pointSM tileSM = true <->
  (sm_x tileSM <= sm_x pointSM <= sm_x tileSM + 256
   /\ sm_y tileSM <= sm_y pointSM <= sm_y tileSM + 256)%Q.
Proof.
  unfold _pointIsWithinTile. js_Q. rewrite !andb_true_iff, !Qle_bool_iff.
  change (inject_Z TILE_SIZE) with 256%Q. tauto.
Qed.

Lemma matchingTile_of_first {num : Type} `{JsNumber num}
    (pointSM : SmCoordinates num) (tiles : list (TileObject num)) (tile : TileObject num) :
  matchingTile_of pointSM tiles = Some tile <->
  exists before after,
    tiles = before ++ tile :: after
    /\ _pointIsWithinTile pointSM (tile_smCoordinates tile) = true
    /\ Forall (fun earlier =>
                 _pointIsWithinTile pointSM (tile_smCoordinates earlier) = false) before.
Proof.
  unfold matchingTile_of. split.
  - induction tiles as [|candidate tiles IH]; cbn; [discriminate|].
    destruct (_pointIsWithinTile pointSM (tile_smCoordinates candidate)) eqn:Hin; cbn.
    + intros [= <-]. exists [], tiles. repeat split; [assumption|constructor].
    + intros (before & after & -> & Hwithin & Hbefore)%IH.
      exists (candidate :: before), after. repeat split; [assumption|].
      now constructor.
  - intros (before & after & -> & Hwithin & Hbefore).
    induction Hbefore as [|earlier before Hout _ IH]; cbn.
    + now rewrite Hwithin.
    + now rewrite Hout.
Qed.

Lemma tileObject_of_origin (tile : Z * Z * Z) (data : option (Pixels Q)) :
  let '(x, y, _) := tile in
  (sm_x (tile_smCoordinates (tileObject_of tile data)) == inject_Z (x * 256)
   /\ sm_y (tile_smCoordinates (tileObject_of tile data)) == inject_Z (y * 256))%Q.
Proof.
  destruct tile as [[x y] z]. cbn. rewrite !inject_Z_mult. split; reflexivity.
Qed.

Lemma tileObject_of_coordinates {num : Type} `{JsNumber num} (tile : Z * Z * Z)
    (data : option (Pixels num)) :
  tile_coordinates (tileObject_of tile data) = tile.
Proof. now destruct tile as [[x y] z]. Qed.

(** C5. After a call, whatever the requests that have called back, the
    entries of [requiredTilesObjects] are those of the required tiles, in
    the order the resolver returned them (none if the executor threw), each
    with pixel origin [(x * 256, y * 256)] for its tile index [(x, y, z)]; a
    point is within a tile exactly when both its pixel coordinates lie in
    [[origin, origin + 256]], bounds included; and the matching tile is the
    first entry, in that order, that the point is within. *)
Theorem tile_origin_and_first_match :
  forall (E : Type) (M : JsMath Q) (C : Collaborators Q E),
    (forall (lineString : LineString Q) (numberOfPoints : Z) (token : string)
            (minMeters : MinMeters Q) (schedule : list nat) (s : ModuleState Q),
        let started := executor (E := E) lineString numberOfPoints token minMeters s in
        let s' := snd (getLineStringElevationPoints lineString numberOfPoints token
                         minMeters schedule s) in
        map tile_coordinates (requiredTilesObjects s') =
          match fst started with
          | inl _ => []
          | inr _ => TileCover_tiles lineString ZOOM_LEVEL ZOOM_LEVEL
          end
        /\ Forall origin_from_index (requiredTilesObjects s'))
    /\ (forall pointSM tileSM : SmCoordinates Q,
          _pointIsWithinTile pointSM tileSM = true <->
          (sm_x tileSM <= sm_x pointSM <= sm_x tileSM + 256
           /\ sm_y tileSM <= sm_y pointSM <= sm_y tileSM + 256)%Q)
    /\ (forall (pointSM : SmCoordinates Q) (tiles : list (TileObject Q))
               (tile : TileObject Q),
          matchingTile_of pointSM tiles = Some tile <->
          exists before after,
            tiles = before ++ tile :: after
            /\ _pointIsWithinTile pointSM (tile_smCoordinates tile) = true
            /\ Forall (fun earlier =>
                         _pointIsWithinTile pointSM (tile_smCoordinates earlier) = false)
                      before).
Proof.
  intros E M C. split; [|split].
  - intros lineString numberOfPoints token minMeters schedule s started s'.
    subst started s'. rewrite run_final_state, executor_spec.
    destruct (effectiveMinKm lineString minMeters) as [error|minKm];
      [cbn; split; [reflexivity|constructor]|].
    cbn [fst requiredTilesObjects state_after]. split.
    + apply list_eq. intros k. rewrite list_lookup_fmap, list_lookup_imap.
      destruct (_ !! k) as [tile|]; [|reflexivity]. cbn.
      now rewrite tileObject_of_coordinates.
    + apply Forall_forall. intros object Hin.
      apply elem_of_lookup_imap_1 in Hin as (k & tile & -> & _).
      unfold origin_from_index. rewrite tileObject_of_coordinates.
      apply (tileObject_of_origin tile).
  - apply pointIsWithinTile_iff.
  - apply matchingTile_of_first.
Qed.

(** Witness of C5: the run on the line at longitude 0, latitude 0. *)
Lemma tile_origin_and_first_match_witness :
  let s' := snd (getLineStringElevationPoints (H0 := equator_Math)
                   (H1 := zero_length_world) zero_length_line 5 EmptyString
                   undefined [0]%nat initial_state) in
  map tile_coordinates (requiredTilesObjects s') = [origin_tile]
  /\ Forall origin_from_index (requiredTilesObjects s').
Proof.
  apply (proj1 (tile_origin_and_first_match nat equator_Math zero_length_world)
           zero_length_line 5%Z EmptyString undefined [0]%nat initial_state).
Defined.

(** ** Concrete runs of the pipeline *)



(** Witness of C8: the sampled points project to pixel (100, 100), outside
    the only required tile. *)
Lemma uncovered_point_rejects_run_witness :
  let C := stub_collaborators nat 1%Q (0, 0)%Q (100, 100)%Q [origin_tile] always_red in
  let s1 := snd (executor (E := nat) (H0 := unused_Math) (H1 := C)
                   any_line 2 EmptyString null initial_state) in
  let outcome :=
    fst (getLineStringElevationPoints (H0 := unused_Math) (H1 := C)
           any_line 2 EmptyString null [0]%nat initial_state) in
  (forall featureCollection, outcome <> Resolved featureCollection)
  /\ exists error,
       outcome = Rejected error
       /\ ((forall promise, In promise (tilePromises s1) ->
              exists pixels,
                getPixels (Collaborators := C) (request promise) = inr pixels) ->
           error = TypeError matchingTile).
Proof.
  intros C s1.
  edestruct (uncovered_point_rejects_run (H0 := unused_Math) (H1 := C)
               any_line 2%Z EmptyString null [0]%nat initial_state s1)
    as [Hnever Hsettled].
  - reflexivity.
  - left. reflexivity.
  - reflexivity.
  - intros tile [<-|[]]. reflexivity.
  - split; [exact Hnever|]. apply Hsettled, Permutation_refl.
Defined.

(** Witness of C10: the same call from two different module states. *)
Lemma run_does_not_depend_on_earlier_runs_witness :
  minKmBetweenPoints
    (snd (executor (E := nat) (H0 := equator_Math) (H1 := zero_length_world)
            zero_length_line 5 EmptyString (meters 60%Q) probe_state))
  = minKmBetweenPoints
      (snd (executor (E := nat) (H0 := equator_Math) (H1 := zero_length_world)
              zero_length_line 5 EmptyString (meters 60%Q) initial_state)).
Proof.
  eapply (run_does_not_depend_on_earlier_runs (H0 := equator_Math)
            (H1 := zero_length_world) zero_length_line 5%Z EmptyString (meters 60%Q)
            [0]%nat probe_state initial_state).
  reflexivity.
Defined.

(** ** The local offset (exact arithmetic) *)




(** ** Auto spacing (exact arithmetic) *)

(** C7. Under the auto policy, [minKmBetweenPoints], in meters, is the ground
    size of one pixel at the latitude of the first coordinate, multiplied by
    10, rounded up to an integer and given to one decimal:
    [ceil(pixel * 10) / 10], that is [pixel] rounded up to a multiple of
    0.1; where [pixel = 40075016.686 * cos(latitude * PI / 180) / 2^(15+8)],
    for the engine's [cos] and [PI]. *)
Theorem auto_minimum_spacing :
  forall (PI : Q) (cos : Q -> Q) (E : Type) (C : Collaborators Q E)
         (lineString : LineString Q) (numberOfPoints : Z) (token : string)
         (s : ModuleState Q) (longitude latitude : Q) (rest : list (Position Q)),
    coordinates lineString = (longitude, latitude) :: rest ->
    let pixel :=
      (40075016.686 * cos (latitude * PI / 180) / inject_Z (2 ^ (15 + 8)))%Q in
    exists minKm,
      minKmBetweenPoints
        (snd (executor (H0 := Q_Math PI cos) lineString numberOfPoints token
                undefined s)) = Some minKm
      /\ (_getPixelDistanceAtLatitudeInMeters (H0 := Q_Math PI cos) latitude
          == pixel)%Q
      /\ (minKm * 1000 == inject_Z (Qceiling (pixel * 10)) / 10)%Q
      /\ (pixel <= minKm * 1000 < pixel + 0.1)%Q.
Proof.
  intros PI cos E C lineString numberOfPoints token s longitude latitude rest Hfirst pixel.
  assert (Hpixel : (_getPixelDistanceAtLatitudeInMeters (H0 := Q_Math PI cos) latitude
                    == pixel)%Q).
  { subst pixel. unfold _getPixelDistanceAtLatitudeInMeters. js_Q.
    cbn [Math_cos Math_PI Q_Math].
    change (inject_Z 40075016686 / inject_Z (10 ^ 3))%Q with 40075016.686%Q.
    change (inject_Z 180) with 180%Q.
    change (ZOOM_LEVEL + 8)%Z with (15 + 8)%Z.
    field. discriminate. }
  rewrite executor_spec. unfold effectiveMinKm. rewrite Hfirst.
  cbn [lookup list_lookup snd minKmBetweenPoints state_after].
  eexists. split; [reflexivity|]. split; [exact Hpixel|].
  js_Q. cbn [Math_ceil Q_Math].
  change (inject_Z 10) with 10%Q.
  assert (Hceil : Qceiling (_getPixelDistanceAtLatitudeInMeters (H0 := Q_Math PI cos)
                              latitude * 10) = Qceiling (pixel * 10)).
  { apply Qceiling_comp. now rewrite Hpixel. }
  rewrite Hceil.
  change (inject_Z 10000) with 10000%Q.
  pose proof (Qle_ceiling (pixel * 10)) as Hle.
  pose proof (Qceiling_lt (pixel * 10)) as Hlt.
  unfold Z.sub in Hlt. rewrite inject_Z_plus in Hlt.
  change (inject_Z (- (1))) with (- (1))%Q in Hlt.
  set (c := inject_Z (Qceiling (pixel * 10))) in *.
  assert (Hmeters : (c / 10000 * 1000 == c * (1 # 10))%Q) by field.
  split; [field|]. rewrite Hmeters. change 0.1%Q with (1 # 10)%Q.
  clearbody c pixel. split; lra.
Qed.

(** Witness of C7: a line that starts at latitude 0. *)
Lemma auto_minimum_spacing_witness :
  exists minKm,
    minKmBetweenPoints
      (snd (executor (H0 := equator_Math) (H1 := zero_length_world)
              zero_length_line 5 EmptyString undefined initial_state)) = Some minKm
    /\ (_getPixelDistanceAtLatitudeInMeters (H0 := equator_Math) 0
        == 40075016.686 * 1 / inject_Z (2 ^ (15 + 8)))%Q
    /\ (minKm * 1000
        == inject_Z (Qceiling (40075016.686 * 1 / inject_Z (2 ^ (15 + 8)) * 10)) / 10)%Q
    /\ (40075016.686 * 1 / inject_Z (2 ^ (15 + 8)) <= minKm * 1000
        < 40075016.686 * 1 / inject_Z (2 ^ (15 + 8)) + 0.1)%Q.
Proof.
  apply (auto_minimum_spacing (355 # 113) (fun _ => 1%Q) nat zero_length_world
           zero_length_line 5%Z EmptyString initial_state 0%Q 0%Q [(0, 0)%Q]).
  reflexivity.
Defined.

(** At the equator the minimum is 24/5 = 4.8 m. *)
Example auto_minimum_spacing_at_equator :
  option_map (fun minKm => Qred (minKm * 1000))
    (minKmBetweenPoints
       (snd (executor (H0 := equator_Math) (H1 := zero_length_world)
               zero_length_line 5 EmptyString undefined initial_state)))
  = Some (24 # 5)%Q.
Proof. vm_compute. reflexivity. Qed.

(** ** Degenerate paths *)

Section DegeneratePaths.
Context {num E : Type} `{JsNumber num} `{JsMath num} `{Collaborators num E}.



End DegeneratePaths.


(** The same run, replayed: it is rejected with the [TypeError] of the
    [then] callback. *)
Example zero_length_path_is_rejected :
  fst (getLineStringElevationPoints (H0 := equator_Math) (H1 := uncovered_world)
         zero_length_line 5 EmptyString undefined [] initial_state)
  = Rejected (TypeError matchingTile).
Proof. vm_compute. reflexivity. Qed.

(** * Further properties *)

(** ** How many distances, and how they are spaced *)

Lemma take_while_map_seq {A : Type} (keep : A -> bool) (f : nat -> A) (count : nat) :
  forall first,
  exists kept,
    (kept <= count)%nat
    /\ take_while keep (map f (seq first count)) = map f (seq first kept)
    /\ (forall k, (first <= k < first + kept)%nat -> keep (f k) = true)
    /\ ((kept < count)%nat -> keep (f (first + kept)%nat) = false).
Proof.
  induction count as [|count IH]; intros first.
  - exists O. split; [lia|]. split; [reflexivity|]. split; intros; lia.
  - cbn [seq map take_while]. destruct (keep (f first)) eqn:Hfirst.
    + destruct (IH (S first)) as (kept & Hle & Heq & Hkept & Hstop).
      exists (S kept). repeat split.
      * lia.
      * cbn. now rewrite Heq.
      * intros k Hk. destruct (decide (k = first)) as [->|Hne]; [assumption|].
        apply Hkept. lia.
      * intros Hlt. replace (first + S kept)%nat with (S first + kept)%nat by lia.
        apply Hstop. lia.
    + exists O. split; [lia|]. split; [reflexivity|]. split; [intros; lia|].
      intros _. now rewrite Nat.add_0_r.
Qed.

(** The emitted distances, in closed form: the first [emitted] multiples of
    the step, all found below the length, then the length. *)
Lemma planner_closed_form {num E : Type} `{JsNumber num} `{Collaborators num E}
    (s : ModuleState num) (lineString : LineString num) (numberOfPoints : Z) :
  let L := turf_length lineString in
  let step := stepDistance_of (minKmBetweenPoints s) L numberOfPoints in
  exists emitted,
    (emitted <= Z.to_nat (numberOfPoints - 1))%nat
    /\ _getLineStringDistancesToCheck s lineString numberOfPoints
       = map (fun k => (step * of_Z (Z.of_nat k))%js) (seq 0 emitted) ++ [L]
    /\ (forall k, (k < emitted)%nat -> (step * of_Z (Z.of_nat k) <? L)%js = true)
    /\ ((emitted < Z.to_nat (numberOfPoints - 1))%nat ->
        (step * of_Z (Z.of_nat emitted) <? L)%js = false).
Proof.
  intros L step. rewrite planner_refines_spec. unfold spec_plan.
  fold L. fold (stepDistance_of (minKmBetweenPoints s) L numberOfPoints). fold step.
  destruct (take_while_map_seq (fun distance => (distance <? L)%js)
              (fun k => (step * of_Z (Z.of_nat k))%js)
              (Z.to_nat (numberOfPoints - 1)) 0%nat)
    as (emitted & Hle & Heq & Hkept & Hstop).
  exists emitted. repeat split.
  - exact Hle.
  - now rewrite Heq.
  - intros k Hk. apply Hkept. lia.
  - exact Hstop.
Qed.

(** X1. Whatever number type the engine computes with, at most
    [numberOfPoints] distances are emitted when [numberOfPoints >= 1], and
    the path length alone when [numberOfPoints <= 1]. *)
Theorem at_most_numberOfPoints_distances :
  forall (num E : Type) (N : JsNumber num) (C : Collaborators num E)
         (s : ModuleState num) (lineString : LineString num) (numberOfPoints : Z),
    let distances := _getLineStringDistancesToCheck s lineString numberOfPoints in
    ((1 <= numberOfPoints)%Z -> (Z.of_nat (length distances) <= numberOfPoints)%Z)
    /\ ((numberOfPoints <= 1)%Z -> distances = [turf_length lineString]).
Proof.
  intros num E N C s lineString numberOfPoints distances. subst distances.
  destruct (planner_closed_form s lineString numberOfPoints)
    as (emitted & Hle & -> & _ & _).
  split.
  - intros Hn. rewrite length_app, length_map, length_seq. cbn. lia.
  - intros Hn. replace (Z.to_nat (numberOfPoints - 1)) with O in Hle by lia.
    replace emitted with O by lia. reflexivity.
Qed.

(** *** In exact arithmetic *)

Section PlannerSpacing.
Variables (minKm : option Q) (L : Q) (numberOfPoints : Z).

Lemma step_at_least_step0 :
  (L / inject_Z (numberOfPoints - 1) <= stepDistance_of minKm L numberOfPoints)%Q.
Proof.
  unfold stepDistance_of. js_Q. destruct minKm as [minimum|]; [|apply Qle_refl].
  destruct (Qltb _ minimum) eqn:Hlt; [|apply Qle_refl].
  apply Qltb_lt in Hlt. now apply Qlt_le_weak.
Qed.

Lemma step_at_least_minimum (minimum : Q) :
  minKm = Some minimum -> (minimum <= stepDistance_of minKm L numberOfPoints)%Q.
Proof.
  intros ->. unfold stepDistance_of. js_Q.
  destruct (Qltb _ minimum) eqn:Hlt; [apply Qle_refl|].
  apply not_true_iff_false in Hlt. rewrite Qltb_lt in Hlt. now apply Qnot_lt_le.
Qed.

Lemma step0_spans :
  (2 <= numberOfPoints)%Z ->
  (L / inject_Z (numberOfPoints - 1) * inject_Z (numberOfPoints - 1) == L)%Q.
Proof.
  intros Hn. field.
  change 0%Q with (inject_Z 0). rewrite inject_Z_injective. lia.
Qed.

Lemma step_positive :
  (2 <= numberOfPoints)%Z -> (0 < L)%Q -> (0 < stepDistance_of minKm L numberOfPoints)%Q.
Proof.
  intros Hn HL. eapply Qlt_le_trans; [|apply step_at_least_step0].
  apply Qlt_shift_div_l.
  - change 0%Q with (inject_Z 0). rewrite <- Zlt_Qlt. lia.
  - now rewrite Qmult_0_l.
Qed.

Lemma last_multiple_reaches_L (emitted : nat) :
  (2 <= numberOfPoints)%Z ->
  (emitted <= Z.to_nat (numberOfPoints - 1))%nat ->
  ((emitted < Z.to_nat (numberOfPoints - 1))%nat ->
   (L <= stepDistance_of minKm L numberOfPoints * inject_Z (Z.of_nat emitted))%Q) ->
  (L <= stepDistance_of minKm L numberOfPoints * inject_Z (Z.of_nat emitted))%Q.
Proof.
  intros Hn Hle Hstop.
  destruct (decide (emitted < Z.to_nat (numberOfPoints - 1))%nat) as [Hlt|Hge];
    [now apply Hstop|].
  replace (Z.of_nat emitted) with (numberOfPoints - 1)%Z by lia.
  rewrite <- step0_spans at 1 by assumption.
  apply Qmult_le_compat_r; [apply step_at_least_step0|].
  apply inject_Z_nonneg. lia.
Qed.

End PlannerSpacing.

Lemma multiple_lt (a : Q) (j k : nat) :
  (0 < a)%Q -> (j < k)%nat -> (a * inject_Z (Z.of_nat j) < a * inject_Z (Z.of_nat k))%Q.
Proof.
  intros Ha Hjk. apply Qmult_lt_l; [assumption|]. rewrite <- Zlt_Qlt. lia.
Qed.

Lemma multiple_le (a b : Q) (k : nat) :
  (a <= b)%Q -> (a * inject_Z (Z.of_nat k) <= b * inject_Z (Z.of_nat k))%Q.
Proof.
  intros Hab. apply Qmult_le_compat_r; [assumption|]. apply inject_Z_nonneg. lia.
Qed.

(** The closed form of the plan, with the loop guard read as an order. *)
Lemma planner_closed_form_Q {E : Type} {C : Collaborators Q E} (s : ModuleState Q)
    (lineString : LineString Q) (numberOfPoints : Z) :
  let L := turf_length lineString in
  let step := stepDistance_of (minKmBetweenPoints s) L numberOfPoints in
  exists emitted,
    (emitted <= Z.to_nat (numberOfPoints - 1))%nat
    /\ _getLineStringDistancesToCheck s lineString numberOfPoints
       = map (fun k => step * inject_Z (Z.of_nat k))%Q (seq 0 emitted) ++ [L]
    /\ (forall k, (k < emitted)%nat -> (step * inject_Z (Z.of_nat k) < L)%Q)
    /\ ((emitted < Z.to_nat (numberOfPoints - 1))%nat ->
        (L <= step * inject_Z (Z.of_nat emitted))%Q).
Proof.
  intros L step.
  destruct (planner_closed_form s lineString numberOfPoints)
    as (emitted & Hle & Heq & Hkept & Hstop).
  exists emitted. split; [exact Hle|]. split; [exact Heq|]. split.
  - intros k Hk. apply Qltb_lt. exact (Hkept k Hk).
  - intros Hlt. apply Qnot_lt_le. rewrite <- Qltb_lt.
    apply not_true_iff_false. exact (Hstop Hlt).
Qed.

Lemma multiples_strictly_sorted (step : Q) (count : nat) :
  (0 < step)%Q ->
  forall first,
  StronglySorted Qlt
    (map (fun k => step * inject_Z (Z.of_nat k))%Q (seq first count)).
Proof.
  intros Hstep. induction count as [|count IH]; intros first; cbn; constructor.
  - apply IH.
  - apply Forall_map, Forall_forall. intros k Hk.
    apply list_elem_of_In, in_seq in Hk. apply multiple_lt; [assumption|lia].
Qed.

Lemma lookup_multiples (step : Q) (count i : nat) (d : Q) :
  map (fun k => step * inject_Z (Z.of_nat k))%Q (seq 0 count) !! i = Some d ->
  (i < count)%nat /\ d = (step * inject_Z (Z.of_nat i))%Q.
Proof.
  intros Hi. apply list_lookup_fmap_Some in Hi as (k & -> & Hk).
  apply lookup_seq in Hk as [-> Hlt]. split; [assumption|reflexivity].
Qed.

(** X2. In exact arithmetic, with no minimum in effect, a path of positive
    length gets exactly [numberOfPoints] distances. *)
Theorem exactly_numberOfPoints_without_minimum :
  forall (E : Type) (C : Collaborators Q E) (s : ModuleState Q)
         (lineString : LineString Q) (numberOfPoints : Z),
    minKmBetweenPoints s = None ->
    (2 <= numberOfPoints)%Z ->
    (0 < turf_length lineString)%Q ->
    Z.of_nat (length (_getLineStringDistancesToCheck s lineString numberOfPoints))
    = numberOfPoints.
Proof.
  intros E C s lineString numberOfPoints Hnone Hn HL.
  destruct (planner_closed_form_Q s lineString numberOfPoints)
    as (emitted & Hle & -> & _ & Hstop).
  rewrite length_app, length_map, length_seq. cbn [length].
  destruct (decide (emitted < Z.to_nat (numberOfPoints - 1))%nat) as [Hlt|Hge]; [|lia].
  exfalso. specialize (Hstop Hlt). revert Hstop. apply Qlt_not_le.
  rewrite Hnone. cbn [stepDistance_of]. js_Q.
  rewrite <- (step0_spans (turf_length lineString) numberOfPoints Hn) at 2.
  apply Qmult_lt_l.
  - apply Qlt_shift_div_l; [|now rewrite Qmult_0_l].
    change 0%Q with (inject_Z 0). rewrite <- Zlt_Qlt. lia.
  - rewrite <- Zlt_Qlt. lia.
Qed.

(** X3. In exact arithmetic, the distances emitted for a path of positive
    length start at 0 and are strictly increasing: the start of the path is
    sampled, and no distance is sampled twice. *)
Theorem distances_start_at_zero_and_increase :
  forall (E : Type) (C : Collaborators Q E) (s : ModuleState Q)
         (lineString : LineString Q) (numberOfPoints : Z),
    (2 <= numberOfPoints)%Z ->
    (0 < turf_length lineString)%Q ->
    let distances := _getLineStringDistancesToCheck s lineString numberOfPoints in
    (exists first rest, distances = first :: rest /\ (first == 0)%Q)
    /\ StronglySorted Qlt distances.
Proof.
  intros E C s lineString numberOfPoints Hn HL distances. subst distances.
  destruct (planner_closed_form_Q s lineString numberOfPoints)
    as (emitted & Hle & -> & Hkept & Hstop).
  set (step := stepDistance_of _ _ _) in *.
  assert (Hstep : (0 < step)%Q) by now apply step_positive.
  split.
  - destruct emitted as [|emitted].
    + exfalso. assert (H0 : (0 < Z.to_nat (numberOfPoints - 1))%nat) by lia.
      specialize (Hstop H0). revert Hstop. apply Qlt_not_le.
      cbn. now rewrite Qmult_0_r.
    + cbn. eexists _, _. split; [reflexivity|]. apply Qmult_0_r.
  - apply StronglySorted_snoc.
    + now apply multiples_strictly_sorted.
    + apply Forall_map, Forall_forall. intros k Hk.
      apply list_elem_of_In, in_seq in Hk. apply Hkept. lia.
Qed.

(** Two consecutive distances differ by the step, or by at most the step
    when the second one is the path length. *)
Lemma consecutive_distances {E : Type} {C : Collaborators Q E} (s : ModuleState Q)
    (lineString : LineString Q) (numberOfPoints : Z) :
  (2 <= numberOfPoints)%Z ->
  let L := turf_length lineString in
  let step := stepDistance_of (minKmBetweenPoints s) L numberOfPoints in
  let distances := _getLineStringDistancesToCheck s lineString numberOfPoints in
  forall (i : nat) (d d' : Q),
    distances !! i = Some d ->
    distances !! S i = Some d' ->
    ((S (S i) < length distances)%nat -> (d' - d == step)%Q)
    /\ (S (S i) = length distances -> (0 < d' - d <= step)%Q).
Proof.
  intros Hn L step distances. subst distances.
  destruct (planner_closed_form_Q s lineString numberOfPoints)
    as (emitted & Hle & -> & Hkept & Hstop).
  fold L in Hkept, Hstop |- *. fold step in Hkept, Hstop |- *.
  pose proof (last_multiple_reaches_L (minKmBetweenPoints s) L numberOfPoints emitted
                Hn Hle Hstop) as Hreach.
  fold step in Hreach.
  intros i d d' Hd Hd'. rewrite length_app, length_map, length_seq. cbn [length].
  assert (Hi : (S i <= emitted)%nat).
  { apply lookup_lt_Some in Hd'.
    rewrite length_app, length_map, length_seq in Hd'. cbn in Hd'. lia. }
  rewrite lookup_app_l in Hd by (rewrite length_map, length_seq; lia).
  apply lookup_multiples in Hd as [_ ->].
  split.
  - intros Hinner.
    rewrite lookup_app_l in Hd' by (rewrite length_map, length_seq; lia).
    apply lookup_multiples in Hd' as [_ ->].
    rewrite Nat2Z.inj_succ. unfold Z.succ. rewrite inject_Z_plus. ring.
  - intros Hlast. assert (S i = emitted) as <- by lia.
    rewrite lookup_app_r in Hd' by (rewrite length_map, length_seq; lia).
    rewrite length_map, length_seq, Nat.sub_diag in Hd'. injection Hd' as <-.
    specialize (Hkept i ltac:(lia)).
    rewrite Nat2Z.inj_succ in Hreach. unfold Z.succ in Hreach.
    rewrite inject_Z_plus in Hreach. change (inject_Z 1) with 1%Q in Hreach.
    clearbody step L. split; lra.
Qed.

(** X4. In exact arithmetic, for [numberOfPoints >= 2]: the step is at
    least the even step [L / (numberOfPoints - 1)] and at least the minimum
    in effect; two consecutive distances differ by the step exactly, except
    the last two, which differ by more than 0 and at most the step. *)
Theorem samples_evenly_spaced :
  forall (E : Type) (C : Collaborators Q E) (s : ModuleState Q)
         (lineString : LineString Q) (numberOfPoints : Z),
    (2 <= numberOfPoints)%Z ->
    let L := turf_length lineString in
    let step := stepDistance_of (minKmBetweenPoints s) L numberOfPoints in
    let distances := _getLineStringDistancesToCheck s lineString numberOfPoints in
    (L / inject_Z (numberOfPoints - 1) <= step)%Q
    /\ (forall minKm, minKmBetweenPoints s = Some minKm -> (minKm <= step)%Q)
    /\ (forall (i : nat) (d d' : Q),
          distances !! i = Some d ->
          distances !! S i = Some d' ->
          ((S (S i) < length distances)%nat -> (d' - d == step)%Q)
          /\ (S (S i) = length distances -> (0 < d' - d <= step)%Q)).
Proof.
  intros E C s lineString numberOfPoints Hn L step distances.
  split; [apply step_at_least_step0|]. split; [apply step_at_least_minimum|].
  now apply consecutive_distances.
Qed.

(** X5. In exact arithmetic, with a positive minimum [minKm] in effect, a
    path of length [L >= 0] gets at most [ceil(L / minKm) + 1] distances,
    however large [numberOfPoints] is. *)
Theorem distance_count_bounded_by_minimum :
  forall (E : Type) (C : Collaborators Q E) (s : ModuleState Q)
         (lineString : LineString Q) (numberOfPoints : Z) (minKm : Q),
    minKmBetweenPoints s = Some minKm ->
    (0 < minKm)%Q ->
    (0 <= turf_length lineString)%Q ->
    (Z.of_nat (length (_getLineStringDistancesToCheck s lineString numberOfPoints))
     <= Qceiling (turf_length lineString / minKm) + 1)%Z.
Proof.
  intros E C s lineString numberOfPoints minKm Hmin Hpos HL.
  destruct (planner_closed_form_Q s lineString numberOfPoints)
    as (emitted & _ & -> & Hkept & _).
  set (L := turf_length lineString) in *.
  set (step := stepDistance_of _ _ _) in *.
  rewrite length_app, length_map, length_seq. cbn [length].
  assert (Hceil0 : (0 <= Qceiling (L / minKm))%Z).
  { rewrite Zle_Qle. eapply Qle_trans; [|apply Qle_ceiling].
    apply Qle_shift_div_l; [assumption|]. now rewrite Qmult_0_l. }
  destruct emitted as [|last]; [lia|].
  assert (Hbelow : (inject_Z (Z.of_nat last) < inject_Z (Qceiling (L / minKm)))%Q).
  { eapply Qlt_le_trans; [|apply Qle_ceiling].
    apply Qlt_shift_div_l; [assumption|].
    eapply Qle_lt_trans; [|apply (Hkept last); lia].
    rewrite Qmult_comm. apply multiple_le.
    apply (step_at_least_minimum _ L numberOfPoints minKm Hmin). }
  rewrite <- Zlt_Qlt in Hbelow. lia.
Qed.

(** ** The run, whatever the requests that have settled *)

Section RunFacts.
Context {num E : Type} `{JsNumber num} `{JsMath num} `{Collaborators num E}.
Local Open Scope js_scope.

Lemma all_settled_In (promises : list TilePromise) (schedule : list nat) :
  all_settled promises schedule = true <->
  forall k, (k < length promises)%nat -> In k schedule.
Proof.
  unfold all_settled. rewrite forallb_forall. split.
  - intros Hall k Hk. destruct (proj1 (existsb_exists _ _) (Hall k ltac:(apply in_seq; lia)))
      as (j & Hj & Heq).
    apply Nat.eqb_eq in Heq. now subst j.
  - intros Hall k Hk%in_seq. apply existsb_exists. exists k.
    split; [apply Hall; lia|apply Nat.eqb_refl].
Qed.

Lemma state_after_all_settled (token : string) (tiles : list (Z * Z * Z))
    (minKm : option num) (schedule : list nat) :
  all_settled (tilePromises (state_after token tiles minKm [])) schedule = true ->
  state_after token tiles minKm (rev schedule ++ []) = final_state token tiles minKm.
Proof.
  intros Hall. rewrite all_settled_In in Hall.
  cbn [tilePromises state_after] in Hall. rewrite length_imap in Hall.
  unfold final_state, state_after. cbn [tilePromises]. f_equal.
  rewrite <- (imap_const (fun tile => tileObject_of tile (fetched token tile))).
  apply imap_ext. intros k tile Hk. cbn.
  rewrite bool_decide_eq_true_2; [reflexivity|].
  rewrite app_nil_r. apply list_elem_of_In, in_rev. rewrite rev_involutive.
  apply Hall. eapply lookup_lt_Some, Hk.
Qed.

(** A run in closed form, whatever its schedule. *)
Lemma run_spec_any (lineString : LineString num) (numberOfPoints : Z) (token : string)
    (minMeters : MinMeters num) (schedule : list nat) (s : ModuleState num) :
  let tiles := TileCover_tiles lineString ZOOM_LEVEL ZOOM_LEVEL in
  getLineStringElevationPoints lineString numberOfPoints token minMeters schedule s =
  match effectiveMinKm (E := E) lineString minMeters with
  | inl error =>
      (Rejected error,
       {| requiredTilesObjects := []; tilePromises := [];
          minKmBetweenPoints := minKmBetweenPoints s |})
  | inr minKm =>
      let settled := state_after token tiles minKm (rev schedule ++ []) in
      (match first_fetch_error token tiles schedule with
       | Some error => Rejected (GetPixelsError error)
       | None =>
           if all_settled (tilePromises (state_after token tiles minKm [])) schedule
           then
             match _addHeightToPointsGeoJSON settled
                     (pointsToCheck_of lineString numberOfPoints minKm) with
             | inl error => Rejected error
             | inr points => Resolved (_getFormattedPointsResult points)
             end
           else Pending
       end,
       settled)
  end.
Proof.
  intros tiles. unfold getLineStringElevationPoints. rewrite executor_spec.
  destruct (effectiveMinKm lineString minMeters) as [error|minKm]; [reflexivity|].
  fold tiles. rewrite settle_in_order_spec.
  destruct (first_fetch_error token tiles schedule) as [error|];
    cbn [fmap option_fmap option_map]; [reflexivity|].
  destruct (all_settled _ _); [|reflexivity].
  now destruct (_addHeightToPointsGeoJSON _ _).
Qed.

Lemma first_fetch_error_scheduled_ok (token : string) (tiles : list (Z * Z * Z))
    (schedule : list nat) :
  (forall k tile, In k schedule -> tiles !! k = Some tile ->
     exists pixels, getPixels (tileRequest_of token tile) = inr pixels) ->
  first_fetch_error token tiles schedule = None.
Proof.
  induction schedule as [|k later IH]; intros Hok; cbn; [reflexivity|].
  assert (Hlater : first_fetch_error token tiles later = None).
  { apply IH. intros j tile Hj. apply Hok. now right. }
  destruct (tiles !! k) as [tile|] eqn:Hk; [|assumption].
  destruct (Hok k tile (or_introl eq_refl) Hk) as [pixels ->]. assumption.
Qed.

(** What the [then] callback attaches to each point. *)
Lemma addHeight_details (s : ModuleState num) (points : list (PointFeature num)) :
  forall annotated,
    _addHeightToPointsGeoJSON (E := E) s points = inr annotated ->
    Forall2
      (fun point point' =>
         exists pointSM tile pixels,
           smCoordinates point = Some pointSM
           /\ matchingTile_of pointSM (requiredTilesObjects s) = Some tile
           /\ tileData tile = Some pixels
           /\ point' =
              {| point_coordinates := point_coordinates point;
                 distanceAlongLine := distanceAlongLine point;
                 smCoordinates := smCoordinates point;
                 elevation := Some (_calculateHeightFromPixel
                   (get pixels (sm_x pointSM - sm_x (tile_smCoordinates tile))
                               (sm_y pointSM - sm_y (tile_smCoordinates tile)) 0,
                    get pixels (sm_x pointSM - sm_x (tile_smCoordinates tile))
                               (sm_y pointSM - sm_y (tile_smCoordinates tile)) 1,
                    get pixels (sm_x pointSM - sm_x (tile_smCoordinates tile))
                               (sm_y pointSM - sm_y (tile_smCoordinates tile)) 2)) |})
      points annotated.
Proof.
  induction points as [|point points IH]; intros annotated Hrun; cbn in Hrun.
  - injection Hrun as <-. constructor.
  - destruct (addHeightToPoint (E := E) s point) as [error|point'] eqn:Hpoint;
      [discriminate|].
    destruct (_addHeightToPointsGeoJSON s points) as [error|rest]; [discriminate|].
    injection Hrun as <-. constructor; [|now apply IH].
    unfold addHeightToPoint in Hpoint.
    destruct (smCoordinates point) as [pointSM|]; [|discriminate].
    destruct (matchingTile_of pointSM (requiredTilesObjects s)) as [tile|] eqn:Hmatch;
      [|discriminate].
    cbn in Hpoint. destruct (tileData tile) as [pixels|] eqn:Hdata; [|discriminate].
    injection Hpoint as <-. exists pointSM, tile, pixels. auto.
Qed.

Lemma matchingTile_of_In (pointSM : SmCoordinates num) (tiles : list (TileObject num))
    (tile : TileObject num) :
  matchingTile_of pointSM tiles = Some tile ->
  In tile tiles /\ _pointIsWithinTile pointSM (tile_smCoordinates tile) = true.
Proof.
  unfold matchingTile_of. intros Hhead.
  apply head_Some_elem_of, list_elem_of_In, filter_In in Hhead. exact Hhead.
Qed.

(** X6. The features of a resolved promise, one per emitted distance and in
    that order: the feature of a distance is the JSON copy of the point at
    the position [along] gives for it, with the distance in meters and no
    pixel coordinates; its elevation is the JSON copy (the number, or [null]
    when it is not finite) of the value decoded from the pixel read, at the
    position's pixel coordinates minus the tile origin, in the image fetched
    for the first entry of [requiredTilesObjects] whose bounding box holds
    those pixel coordinates. *)
Theorem resolved_features_are_the_decoded_samples (lineString : LineString num)
    (numberOfPoints : Z) (token : string) (minMeters : MinMeters num)
    (schedule : list nat) (s : ModuleState num)
    (featureCollection : FeatureCollection num) :
  let call := getLineStringElevationPoints lineString numberOfPoints token minMeters
                schedule s in
  let started := executor (E := E) lineString numberOfPoints token minMeters s in
  fst call = Resolved featureCollection ->
  Forall2
    (fun distance feature =>
       let position := turf_along lineString distance in
       let pixel := sphericalMercator_px position ZOOM_LEVEL in
       let pointSM := {| sm_x := fst pixel; sm_y := snd pixel |} in
       feature_coordinates feature =
         (JSON_number (fst position), JSON_number (snd position))
       /\ feature_distanceAlongLine feature = JSON_number (distance * of_Z 1000)
       /\ feature_smCoordinates feature = None
       /\ exists tile pixels,
            matchingTile_of pointSM (requiredTilesObjects (snd call)) = Some tile
            /\ tileData tile = Some pixels
            /\ (let '(x, y, z) := tile_coordinates tile in
                getPixels {| request_z := z; request_x := x; request_y := y;
                             access_token := token |} = inr pixels)
            /\ feature_elevation feature =
               Some (JSON_number (_calculateHeightFromPixel
                 (get pixels (sm_x pointSM - sm_x (tile_smCoordinates tile))
                             (sm_y pointSM - sm_y (tile_smCoordinates tile)) 0,
                  get pixels (sm_x pointSM - sm_x (tile_smCoordinates tile))
                             (sm_y pointSM - sm_y (tile_smCoordinates tile)) 1,
                  get pixels (sm_x pointSM - sm_x (tile_smCoordinates tile))
                             (sm_y pointSM - sm_y (tile_smCoordinates tile)) 2))))
    (_getLineStringDistancesToCheck (snd started) lineString numberOfPoints)
    (features featureCollection).
Proof.
  intros call started. subst call started.
  rewrite run_spec_any, executor_spec.
  destruct (effectiveMinKm lineString minMeters) as [error|minKm]; [discriminate|].
  cbn zeta. cbn [fst snd].
  set (tiles := TileCover_tiles lineString ZOOM_LEVEL ZOOM_LEVEL).
  destruct (first_fetch_error token tiles schedule); [discriminate|].
  destruct (all_settled _ _) eqn:Hall; [|discriminate].
  rewrite (state_after_all_settled _ _ _ _ Hall).
  destruct (_addHeightToPointsGeoJSON _ _) as [error|annotated] eqn:Hthen;
    [discriminate|].
  intros [= <-]. apply addHeight_details in Hthen.
  unfold _getFormattedPointsResult. cbn [features].
  unfold pointsToCheck_of, _addXYZCoordinatesToPointsGeoJSON, _getLineStringPoints,
    _getPointsToCheck in Hthen.
  rewrite map_map in Hthen. cbn [point_coordinates distanceAlongLine elevation] in Hthen.
  apply Forall2_fmap_l in Hthen. apply Forall2_fmap_r.
  replace (_getLineStringDistancesToCheck (state_after token tiles minKm [])
             lineString numberOfPoints)
    with (_getLineStringDistancesToCheck
            {| requiredTilesObjects := []; tilePromises := [];
               minKmBetweenPoints := minKm |} lineString numberOfPoints)
    by reflexivity.
  eapply Forall2_impl; [exact Hthen|].
  cbn beta. intros distance point' (pointSM & tile & pixels & Hsm & Hmatch & Hdata & ->).
  cbn [smCoordinates] in Hsm. injection Hsm as <-.
  cbn [point_coordinates distanceAlongLine smCoordinates elevation option_map
       feature_coordinates feature_distanceAlongLine feature_smCoordinates
       feature_elevation].
  repeat split. exists tile, pixels. repeat split; try assumption.
  apply matchingTile_of_In in Hmatch as [Hin _].
  cbn [requiredTilesObjects final_state] in Hin.
  apply in_map_iff in Hin as ([[x y] z] & <- & _).
  cbn in Hdata |- *. unfold fetched in Hdata. cbn in Hdata.
  destruct (getPixels _) as [error|pixels']; [discriminate|]. congruence.
Qed.

Lemma addHeight_covered (s : ModuleState num) (points : list (PointFeature num)) :
  Forall (fun point =>
            exists pointSM tile pixels,
              smCoordinates point = Some pointSM
              /\ matchingTile_of pointSM (requiredTilesObjects s) = Some tile
              /\ tileData tile = Some pixels) points ->
  exists annotated, _addHeightToPointsGeoJSON (E := E) s points = inr annotated.
Proof.
  induction 1 as [|point points (pointSM & tile & pixels & Hsm & Hmatch & Hdata) _ IH];
    cbn.
  - eauto.
  - unfold addHeightToPoint. rewrite Hsm, Hmatch. cbn. rewrite Hdata.
    destruct IH as [annotated ->]. eauto.
Qed.

Lemma addHeight_throws_TypeError (s : ModuleState num) (points : list (PointFeature num))
    (error : JsError E) :
  _addHeightToPointsGeoJSON s points = inl error -> exists reading, error = TypeError reading.
Proof.
  induction points as [|point points IH]; cbn; [discriminate|].
  destruct (addHeightToPoint s point) as [error'|point'] eqn:Hpoint.
  - intros [= <-]. unfold addHeightToPoint in Hpoint.
    destruct (smCoordinates point) as [pointSM|]; [|injection Hpoint as <-; eauto].
    destruct (matchingTile_of pointSM (requiredTilesObjects s)) as [tile|];
      [|injection Hpoint as <-; eauto].
    cbn in Hpoint. destruct (tileData tile); [discriminate|].
    injection Hpoint as <-; eauto.
  - destruct (_addHeightToPointsGeoJSON s points); [|discriminate].
    intros [= <-]. now apply IH.
Qed.

(** X7. When the executor did not throw, the promise is resolved exactly
    when every tile request has settled, none of the settled requests
    failed, and the pixel coordinates of every point to check lie within the
    bounding box of some entry of [requiredTilesObjects]. *)
Theorem resolves_iff_fetched_and_covered (lineString : LineString num)
    (numberOfPoints : Z) (token : string) (minMeters : MinMeters num)
    (schedule : list nat) (s s1 : ModuleState num)
    (pointsToCheck : list (PointFeature num)) :
  let outcome :=
    fst (getLineStringElevationPoints lineString numberOfPoints token minMeters
           schedule s) in
  executor (E := E) lineString numberOfPoints token minMeters s = (inr pointsToCheck, s1) ->
  (exists featureCollection, outcome = Resolved featureCollection)
  <->
  (forall k, (k < length (tilePromises s1))%nat -> In k schedule)
  /\ (forall k promise, In k schedule -> tilePromises s1 !! k = Some promise ->
        exists pixels, getPixels (request promise) = inr pixels)
  /\ (forall point, In point pointsToCheck ->
        exists pointSM tile,
          smCoordinates point = Some pointSM
          /\ In tile (requiredTilesObjects s1)
          /\ _pointIsWithinTile pointSM (tile_smCoordinates tile) = true).
Proof.
  intros outcome Hstarted. subst outcome.
  destruct (executor_returns _ _ _ _ _ _ _ Hstarted) as (minKm & HminKm & -> & ->).
  rewrite run_spec_any, HminKm. cbn zeta. cbn [fst].
  set (tiles := TileCover_tiles lineString ZOOM_LEVEL ZOOM_LEVEL).
  set (points := pointsToCheck_of lineString numberOfPoints minKm).
  rewrite <- all_settled_In.
  split.
  - intros [featureCollection Hresolved].
    destruct (first_fetch_error token tiles schedule) eqn:Hfirst; [discriminate|].
    destruct (all_settled _ _) eqn:Hall; [|discriminate].
    rewrite (state_after_all_settled _ _ _ _ Hall) in Hresolved.
    destruct (_addHeightToPointsGeoJSON _ _) as [error|annotated] eqn:Hthen;
      [discriminate|].
    split; [reflexivity|]. split.
    + intros k promise Hin Hk. rewrite promise_lookup in Hk.
      destruct (tiles !! k) as [tile|] eqn:Htile; [|discriminate].
      injection Hk as <-. cbn [request].
      eapply first_fetch_error_None; eassumption.
    + apply addHeight_details in Hthen. intros point Hpoint.
      apply list_elem_of_In, list_elem_of_lookup in Hpoint as [i Hi].
      destruct (Forall2_lookup_l _ _ _ _ _ Hthen Hi)
        as (point' & _ & pointSM & tile & pixels & Hsm & Hmatch & _).
      apply matchingTile_of_In in Hmatch as [Hin Hwithin].
      cbn [requiredTilesObjects final_state] in Hin.
      apply in_map_iff in Hin as (tile0 & <- & Hin).
      exists pointSM, (tileObject_of tile0 None). repeat split; [assumption| |].
      * now apply In_requiredTilesObjects.
      * now rewrite (tileObject_of_smCoordinates tile0 _ (fetched token tile0)).
  - intros (Hall & Hok & Hcovered).
    rewrite first_fetch_error_scheduled_ok.
    2:{ intros k tile Hin Hk.
        apply (Hok k {| request := tileRequest_of token tile;
                        requiredTilesObjectsIndex := k |} Hin).
        now rewrite promise_lookup, Hk. }
    rewrite Hall, (state_after_all_settled _ _ _ _ Hall).
    destruct (addHeight_covered (final_state token tiles minKm) points)
      as [annotated ->]; [|eauto].
    apply Forall_forall. intros point Hpoint%list_elem_of_In.
    destruct (Hcovered point Hpoint) as (pointSM & object & Hsm & Hin & Hwithin).
    destruct (matchingTile_of pointSM (requiredTilesObjects (final_state token tiles minKm)))
      as [tile|] eqn:Hmatch.
    + exists pointSM, tile. destruct (matchingTile_of_In _ _ _ Hmatch) as [Htile _].
      cbn [requiredTilesObjects final_state] in Htile.
      apply in_map_iff in Htile as (tile0 & <- & Htile0).
      apply list_elem_of_In, list_elem_of_lookup in Htile0 as [k Hk].
      destruct (Hok k {| request := tileRequest_of token tile0;
                         requiredTilesObjectsIndex := k |}) as [pixels Hpixels].
      * rewrite all_settled_In in Hall. apply Hall.
        cbn [tilePromises state_after]. rewrite length_imap. eapply lookup_lt_Some, Hk.
      * now rewrite promise_lookup, Hk.
      * cbn [request] in Hpixels. exists pixels.
        split; [assumption|]. split; [exact Hmatch|].
        rewrite tileObject_of_tileData. unfold fetched. now rewrite Hpixels.
    + exfalso. rewrite matchingTile_of_None in Hmatch.
      cbn [requiredTilesObjects final_state state_after] in Hmatch, Hin.
      apply list_elem_of_In, elem_of_lookup_imap_1 in Hin as (k & tile0 & -> & Hk).
      rewrite Forall_map, Forall_forall in Hmatch.
      specialize (Hmatch tile0 ltac:(eapply list_elem_of_lookup_2, Hk)). cbn in Hmatch.
      rewrite (tileObject_of_smCoordinates tile0 _ None) in Hmatch.
      rewrite (tileObject_of_smCoordinates tile0 _ None) in Hwithin. congruence.
Qed.

(** X8. When the executor did not throw, and whatever the requests that
    have settled: the promise is rejected with a request error exactly when
    the request of some settled tile promise failed, without waiting for the
    others; and it is still pending exactly when no settled request failed
    and some tile promise has not settled. *)
Theorem rejects_at_first_failure_and_waits_otherwise (lineString : LineString num)
    (numberOfPoints : Z) (token : string) (minMeters : MinMeters num)
    (schedule : list nat) (s s1 : ModuleState num)
    (pointsToCheck : list (PointFeature num)) :
  let outcome :=
    fst (getLineStringElevationPoints lineString numberOfPoints token minMeters
           schedule s) in
  executor (E := E) lineString numberOfPoints token minMeters s = (inr pointsToCheck, s1) ->
  ((exists error, outcome = Rejected (GetPixelsError error))
   <-> exists k promise error,
         In k schedule /\ tilePromises s1 !! k = Some promise
         /\ getPixels (request promise) = inl error)
  /\ (outcome = Pending
      <-> (forall k promise, In k schedule -> tilePromises s1 !! k = Some promise ->
             exists pixels, getPixels (request promise) = inr pixels)
          /\ exists k, (k < length (tilePromises s1))%nat /\ ~ In k schedule).
Proof.
  intros outcome Hstarted. subst outcome.
  destruct (executor_returns _ _ _ _ _ _ _ Hstarted) as (minKm & HminKm & -> & ->).
  rewrite run_spec_any, HminKm. cbn zeta. cbn [fst].
  set (tiles := TileCover_tiles lineString ZOOM_LEVEL ZOOM_LEVEL).
  set (points := pointsToCheck_of lineString numberOfPoints minKm).
  assert (Hfailure : forall error, first_fetch_error token tiles schedule = Some error ->
            exists k promise error,
              In k schedule
              /\ tilePromises (state_after token tiles minKm []) !! k = Some promise
              /\ getPixels (request promise) = inl error).
  { intros error (k & tile & Hin & Hk & Hfetch)%first_fetch_error_Some.
    exists k, {| request := tileRequest_of token tile; requiredTilesObjectsIndex := k |},
      error.
    rewrite promise_lookup, Hk. auto. }
  assert (Hsuccess : first_fetch_error token tiles schedule = None ->
            forall k promise, In k schedule ->
              tilePromises (state_after token tiles minKm []) !! k = Some promise ->
              exists pixels, getPixels (request promise) = inr pixels).
  { intros Hfirst k promise Hin Hk. rewrite promise_lookup in Hk.
    destruct (tiles !! k) as [tile|] eqn:Htile; [|discriminate].
    injection Hk as <-. cbn [request]. eapply first_fetch_error_None; eassumption. }
  destruct (first_fetch_error token tiles schedule) as [error|] eqn:Hfirst.
  - destruct (Hfailure error eq_refl) as (k & promise & error' & Hin & Hk & Hfetch).
    split; split.
    + intros _. exists k, promise, error'. auto.
    + intros _. eauto.
    + discriminate.
    + intros [Hok _]. destruct (Hok k promise Hin Hk) as [pixels Hpixels]. congruence.
  - specialize (Hsuccess eq_refl). split.
    + split.
      * intros [error Hrejected]. exfalso.
        destruct (all_settled _ _); [|discriminate].
        destruct (_addHeightToPointsGeoJSON _ _) as [error'|annotated] eqn:Hthen;
          [|discriminate].
        apply addHeight_throws_TypeError in Hthen as [reading ->]. discriminate.
      * intros (k & promise & error & Hin & Hk & Hfetch).
        destruct (Hsuccess k promise Hin Hk) as [pixels Hpixels]. congruence.
    + destruct (all_settled _ _) eqn:Hall.
      * split.
        -- now destruct (_addHeightToPointsGeoJSON _ _).
        -- intros [_ (k & Hk & Hout)]. rewrite all_settled_In in Hall.
           now specialize (Hall k Hk).
      * split; [|reflexivity]. intros _. split; [assumption|].
        destruct (decide (Forall (fun k => k ∈ schedule)
                            (seq 0 (length (tilePromises (state_after token tiles minKm []))))))
          as [Hevery|Hsome].
        -- rewrite Forall_forall in Hevery.
           assert (all_settled (tilePromises (state_after token tiles minKm [])) schedule
                   = true); [|congruence].
           apply all_settled_In. intros k Hk.
           apply list_elem_of_In, Hevery, list_elem_of_In, in_seq. lia.
        -- apply not_Forall_Exists in Hsome; [|apply _].
           apply Exists_exists in Hsome as (k & Hk%list_elem_of_In%in_seq & Hout).
           exists k. split; [lia|]. intros Hk'%list_elem_of_In. now apply Hout.
Qed.

(** X9. The order in which the tile requests settle changes neither the
    module state a call leaves, once they have all settled, nor its outcome,
    except for which request error is reported when requests failed. *)
Theorem settling_order_only_selects_the_error (lineString : LineString num)
    (numberOfPoints : Z) (token : string) (minMeters : MinMeters num)
    (schedule schedule' : list nat) (s : ModuleState num) :
  let run := fun order =>
    getLineStringElevationPoints lineString numberOfPoints token minMeters order s in
  let promises :=
    tilePromises (snd (executor (E := E) lineString numberOfPoints token minMeters s)) in
  complete_schedule schedule (length promises) ->
  complete_schedule schedule' (length promises) ->
  snd (run schedule) = snd (run schedule')
  /\ (fst (run schedule) = fst (run schedule')
      \/ exists error error',
           fst (run schedule) = Rejected (GetPixelsError error)
           /\ fst (run schedule') = Rejected (GetPixelsError error')).
Proof.
  intros run promises. subst run promises. rewrite executor_spec, !run_spec_any.
  destruct (effectiveMinKm lineString minMeters) as [error|minKm]; cbn zeta; cbn [fst snd].
  { auto. }
  set (tiles := TileCover_tiles lineString ZOOM_LEVEL ZOOM_LEVEL).
  cbn [tilePromises state_after]. rewrite length_imap. intros Hcomplete Hcomplete'.
  rewrite !state_after_complete by assumption. split; [reflexivity|].
  pose proof (all_settled_complete token tiles minKm schedule [] Hcomplete) as Hall.
  pose proof (all_settled_complete token tiles minKm schedule' [] Hcomplete') as Hall'.
  cbn [tilePromises state_after] in Hall, Hall'. rewrite Hall, Hall'.
  destruct (first_fetch_error token tiles schedule) as [error|] eqn:Hfirst,
           (first_fetch_error token tiles schedule') as [error'|] eqn:Hfirst';
    [right; eauto| | |left; reflexivity]; exfalso.
  - destruct (first_fetch_error_Some _ _ _ _ Hfirst) as (k & tile & _ & Hk & Hfetch).
    destruct (first_fetch_error_None _ _ _ Hfirst' k tile) as [pixels Hpixels];
      [|assumption|congruence].
    eapply complete_schedule_In; [eassumption|]. eapply lookup_lt_Some, Hk.
  - destruct (first_fetch_error_Some _ _ _ _ Hfirst') as (k & tile & _ & Hk & Hfetch).
    destruct (first_fetch_error_None _ _ _ Hfirst k tile) as [pixels Hpixels];
      [|assumption|congruence].
    eapply complete_schedule_In; [eassumption|]. eapply lookup_lt_Some, Hk.
Qed.


(** ** The tile callbacks and the required tiles, from any module state *)

Lemma settle_frame (promise : TilePromise) (s : ModuleState num) :
  let s' := snd (settle (E := E) promise s) in
  tilePromises s' = tilePromises s
  /\ minKmBetweenPoints s' = minKmBetweenPoints s
  /\ map tile_coordinates (requiredTilesObjects s') =
     map tile_coordinates (requiredTilesObjects s)
  /\ map tile_smCoordinates (requiredTilesObjects s') =
     map tile_smCoordinates (requiredTilesObjects s)
  /\ forall j tile tile',
       requiredTilesObjects s !! j = Some tile ->
       requiredTilesObjects s' !! j = Some tile' ->
       tileData tile' = tileData tile
       \/ exists pixels,
            requiredTilesObjectsIndex promise = j
            /\ getPixels (request promise) = inr pixels
            /\ tileData tile' = Some pixels.
Proof.
  unfold settle.
  destruct (getPixels (request promise)) as [error|pixels] eqn:Hfetch; cbn [snd].
  { repeat split. intros j tile tile' Hj Hj'. left. congruence. }
  destruct (requiredTilesObjects s !! requiredTilesObjectsIndex promise)
    as [slot|] eqn:Hslot; cbn [snd].
  2:{ repeat split. intros j tile tile' Hj Hj'. left. congruence. }
  cbn [tilePromises minKmBetweenPoints requiredTilesObjects].
  repeat split.
  - change (tile_coordinates <$>
              <[requiredTilesObjectsIndex promise :=
                  {| tile_coordinates := tile_coordinates slot;
                     tile_smCoordinates := tile_smCoordinates slot;
                     tileData := Some pixels |}]> (requiredTilesObjects s)
            = tile_coordinates <$> requiredTilesObjects s).
    rewrite list_fmap_insert. apply list_insert_id.
    now rewrite list_lookup_fmap, Hslot.
  - change (tile_smCoordinates <$>
              <[requiredTilesObjectsIndex promise :=
                  {| tile_coordinates := tile_coordinates slot;
                     tile_smCoordinates := tile_smCoordinates slot;
                     tileData := Some pixels |}]> (requiredTilesObjects s)
            = tile_smCoordinates <$> requiredTilesObjects s).
    rewrite list_fmap_insert. apply list_insert_id.
    now rewrite list_lookup_fmap, Hslot.
  - intros j tile tile' Hj Hj'.
    destruct (decide (requiredTilesObjectsIndex promise = j)) as [Heq|Hne].
    + right. exists pixels. split; [assumption|]. split; [reflexivity|].
      rewrite Heq, list_lookup_insert_eq in Hj' by (eapply lookup_lt_Some, Hj).
      now injection Hj' as <-.
    + left. rewrite list_lookup_insert_ne in Hj' by assumption. congruence.
Qed.

(** X10. The tile callbacks, for any array of tile promises, any settling
    order and any module state: they leave [tilePromises] and
    [minKmBetweenPoints] alone; they add, remove or move no entry of
    [requiredTilesObjects] and change neither the tile index nor the pixel
    origin of an entry; and the [tileData] of an entry is either what it
    was, or the pixels fetched by a settled promise that designates this
    entry. *)
Theorem tile_callbacks_only_store_pixels (promises : list TilePromise)
    (schedule : list nat) (rejection : option (JsError E)) (s : ModuleState num) :
  let s' := snd (settle_in_order promises schedule rejection s) in
  tilePromises s' = tilePromises s
  /\ minKmBetweenPoints s' = minKmBetweenPoints s
  /\ map tile_coordinates (requiredTilesObjects s') =
     map tile_coordinates (requiredTilesObjects s)
  /\ map tile_smCoordinates (requiredTilesObjects s') =
     map tile_smCoordinates (requiredTilesObjects s)
  /\ forall j tile tile',
       requiredTilesObjects s !! j = Some tile ->
       requiredTilesObjects s' !! j = Some tile' ->
       tileData tile' = tileData tile
       \/ exists k promise pixels,
            In k schedule
            /\ promises !! k = Some promise
            /\ requiredTilesObjectsIndex promise = j
            /\ getPixels (request promise) = inr pixels
            /\ tileData tile' = Some pixels.
Proof.
  revert rejection s.
  induction schedule as [|k later IH]; intros rejection s; cbn [settle_in_order].
  { cbn. repeat split. intros j tile tile' Hj Hj'. left. congruence. }
  destruct (promises !! k) as [promise|] eqn:Hk.
  2:{ destruct (IH rejection s) as (Hp & Hm & Hc & Ho & Hd). repeat split; try assumption.
      intros j tile tile' Hj Hj'.
      destruct (Hd j tile tile' Hj Hj')
        as [Hsame|(k' & promise' & pixels & Hin & Hrest)]; [now left|].
      right. exists k', promise', pixels. split; [now right|assumption]. }
  pose proof (settle_frame promise s) as (Hp1 & Hm1 & Hc1 & Ho1 & Hd1).
  destruct (settle promise s) as [rejected s1]. cbn [snd] in Hp1, Hm1, Hc1, Ho1, Hd1.
  destruct (IH (match rejection with Some error => Some error | None => rejected end) s1)
    as (Hp & Hm & Hc & Ho & Hd).
  repeat split; try congruence.
  intros j tile tile' Hj Hj'.
  assert (Hlength : length (requiredTilesObjects s1) = length (requiredTilesObjects s)).
  { rewrite <- (length_map tile_coordinates), Hc1. apply length_map. }
  destruct (lookup_lt_is_Some_2 (requiredTilesObjects s1) j) as [tile1 Hj1].
  { rewrite Hlength. eapply lookup_lt_Some, Hj. }
  destruct (Hd j tile1 tile' Hj1 Hj')
    as [Hsame|(k' & promise' & pixels & Hin & Hrest)].
  - destruct (Hd1 j tile tile1 Hj Hj1) as [Hsame1|(pixels & Hindex & Hfetch & Hdata)].
    + left. congruence.
    + right. exists k, promise, pixels. repeat split; try assumption; try congruence.
      now left.
  - right. exists k', promise', pixels. split; [now right|assumption].
Qed.

(** X11. [_getTileArrayFromLineString], from any module state: it leaves
    [minKmBetweenPoints] and the entries and promises already there, and
    appends one entry and one promise per tile of the cover, in the order of
    the cover.  The entry of the tile [(x, y, z)] has the pixel origin
    [(x * 256, y * 256)] and no data; its promise asks for [z], [x] and [y]
    with the access token, and designates the position of the tile in the
    cover: the position of its own entry when [requiredTilesObjects] was
    empty on entry. *)
Theorem required_tiles_are_appended_in_cover_order (lineString : LineString num)
    (minZoom maxZoom : Z) (token : string) (s : ModuleState num) :
  let cover := TileCover_tiles lineString minZoom maxZoom in
  let s' := _getTileArrayFromLineString lineString minZoom maxZoom token s in
  minKmBetweenPoints s' = minKmBetweenPoints s
  /\ length (requiredTilesObjects s') = (length (requiredTilesObjects s) + length cover)%nat
  /\ length (tilePromises s') = (length (tilePromises s) + length cover)%nat
  /\ (forall j entry, requiredTilesObjects s !! j = Some entry ->
        requiredTilesObjects s' !! j = Some entry)
  /\ (forall j promise, tilePromises s !! j = Some promise ->
        tilePromises s' !! j = Some promise)
  /\ (forall k x y z, cover !! k = Some (x, y, z) ->
        requiredTilesObjects s' !! (length (requiredTilesObjects s) + k)%nat =
          Some {| tile_coordinates := (x, y, z);
                  tile_smCoordinates := {| sm_x := of_Z x * of_Z 256;
                                           sm_y := of_Z y * of_Z 256 |};
                  tileData := None |}
        /\ tilePromises s' !! (length (tilePromises s) + k)%nat =
          Some {| request := {| request_z := z; request_x := x; request_y := y;
                                access_token := token |};
                  requiredTilesObjectsIndex := k |}).
Proof.
  intros cover s'. subst s'. unfold _getTileArrayFromLineString. fold cover.
  rewrite requiredTiles_forEach_state.
  cbn [minKmBetweenPoints requiredTilesObjects tilePromises].
  rewrite !length_app, length_map, length_imap.
  do 3 (split; [reflexivity|]).
  split; [intros j entry Hj; now apply lookup_app_l_Some|].
  split; [intros j promise Hj; now apply lookup_app_l_Some|].
  intros k x y z Hk. split.
  - rewrite lookup_app_r by lia.
    replace (length (requiredTilesObjects s) + k - length (requiredTilesObjects s))%nat
      with k by lia.
    rewrite list_lookup_fmap, Hk. reflexivity.
  - rewrite lookup_app_r by lia.
    replace (length (tilePromises s) + k - length (tilePromises s))%nat with k by lia.
    rewrite list_lookup_imap, Hk. reflexivity.
Qed.

(** X12. A resolved promise carries as many features as distances were
    emitted: at most [numberOfPoints] when [numberOfPoints >= 1], and one
    when [numberOfPoints <= 1]. *)
Theorem resolved_collection_has_at_most_numberOfPoints_features
    (lineString : LineString num) (numberOfPoints : Z) (token : string)
    (minMeters : MinMeters num) (schedule : list nat) (s : ModuleState num)
    (featureCollection : FeatureCollection num) :
  let call := getLineStringElevationPoints lineString numberOfPoints token minMeters
                schedule s in
  let started := executor (E := E) lineString numberOfPoints token minMeters s in
  fst call = Resolved featureCollection ->
  length (features featureCollection) =
    length (_getLineStringDistancesToCheck (snd started) lineString numberOfPoints)
  /\ ((1 <= numberOfPoints)%Z ->
      (Z.of_nat (length (features featureCollection)) <= numberOfPoints)%Z)
  /\ ((numberOfPoints <= 1)%Z -> length (features featureCollection) = 1%nat).
Proof.
  intros call started. subst call started.
  rewrite run_spec_any, executor_spec.
  destruct (effectiveMinKm lineString minMeters) as [error|minKm]; [discriminate|].
  cbn zeta. cbn [fst snd].
  set (tiles := TileCover_tiles lineString ZOOM_LEVEL ZOOM_LEVEL).
  destruct (first_fetch_error token tiles schedule); [discriminate|].
  destruct (all_settled _ _); [|discriminate].
  destruct (_addHeightToPointsGeoJSON _ _) as [error|annotated] eqn:Hthen;
    [discriminate|].
  intros [= <-]. apply addHeight_details, Forall2_length in Hthen.
  unfold _getFormattedPointsResult. cbn [features]. rewrite length_map, <- Hthen.
  unfold pointsToCheck_of, _addXYZCoordinatesToPointsGeoJSON, _getLineStringPoints,
    _getPointsToCheck.
  rewrite !length_map.
  destruct (planner_closed_form
              {| requiredTilesObjects := []; tilePromises := [];
                 minKmBetweenPoints := minKm |} lineString numberOfPoints)
    as (emitted & Hle & Heq & _ & _).
  replace (_getLineStringDistancesToCheck (state_after token tiles minKm [])
             lineString numberOfPoints)
    with (_getLineStringDistancesToCheck
            {| requiredTilesObjects := []; tilePromises := [];
               minKmBetweenPoints := minKm |} lineString numberOfPoints)
    by reflexivity.
  rewrite Heq, length_app, length_map, length_seq. cbn [length].
  split; [reflexivity|]. split; lia.
Qed.

Lemma all_settled_fetched (token : string) (tiles : list (Z * Z * Z))
    (minKm : option num) (schedule : list nat) :
  all_settled (tilePromises (state_after token tiles minKm [])) schedule = true ->
  first_fetch_error token tiles schedule = None ->
  Forall (fun tile => is_Some (tileData tile))
    (requiredTilesObjects (final_state token tiles minKm)).
Proof.
  intros Hall Hfirst. rewrite all_settled_In in Hall.
  cbn [tilePromises state_after] in Hall. rewrite length_imap in Hall.
  cbn [requiredTilesObjects final_state]. apply Forall_map, Forall_forall.
  intros tile [k Hk]%list_elem_of_lookup. cbn. rewrite tileObject_of_tileData.
  destruct (first_fetch_error_None _ _ _ Hfirst k tile) as [pixels Hpixels];
    [|assumption|].
  - apply Hall. eapply lookup_lt_Some, Hk.
  - unfold fetched. rewrite Hpixels. eauto.
Qed.

(** X13. The imported functions returning as modelled, a call is rejected
    for one of three reasons only: the read of the first coordinate of a
    path without coordinates, under the auto policy; the error of a tile
    request; or, every request having succeeded, the read of the matching
    tile of a point that no entry of [requiredTilesObjects] holds.  The
    other reads of the callbacks never fail. *)
Theorem a_call_is_rejected_for_three_reasons_only (lineString : LineString num)
    (numberOfPoints : Z) (token : string) (minMeters : MinMeters num)
    (schedule : list nat) (s : ModuleState num) (error : JsError E) :
  let call := getLineStringElevationPoints lineString numberOfPoints token minMeters
                schedule s in
  fst call = Rejected error ->
  (error = TypeError coordinates_0
   /\ minMeters = undefined /\ coordinates lineString = [])
  \/ (exists request_error, error = GetPixelsError request_error)
  \/ (error = TypeError matchingTile
      /\ (forall k, (k < length (tilePromises (snd call)))%nat -> In k schedule)
      /\ Forall (fun tile => is_Some (tileData tile)) (requiredTilesObjects (snd call))).
Proof.
  intros call. subst call. rewrite run_spec_any.
  destruct (effectiveMinKm lineString minMeters) as [thrown|minKm] eqn:Hmin;
    cbn zeta; cbn [fst snd].
  { intros [= <-]. left. unfold effectiveMinKm in Hmin.
    destruct minMeters as [| |inMeters]; try discriminate.
    destruct (coordinates lineString) as [|first rest]; [|discriminate].
    injection Hmin as <-. auto. }
  set (tiles := TileCover_tiles lineString ZOOM_LEVEL ZOOM_LEVEL).
  destruct (first_fetch_error token tiles schedule) as [request_error|] eqn:Hfirst.
  { intros [= <-]. right. left. eauto. }
  destruct (all_settled _ _) eqn:Hall; [|discriminate].
  rewrite (state_after_all_settled _ _ _ _ Hall).
  destruct (_addHeightToPointsGeoJSON _ _) as [thrown|annotated] eqn:Hthen;
    [|discriminate].
  intros [= <-]. right. right.
  pose proof (all_settled_fetched _ _ _ _ Hall Hfirst) as Hfetched.
  split; [|split; [|exact Hfetched]].
  - eapply addHeight_error; [exact Hfetched| |exact Hthen].
    apply pointsToCheck_projected.
  - now apply all_settled_In.
Qed.

End RunFacts.

(** ** The decoder, the tile edges and the auto spacing (exact arithmetic) *)

Lemma rgb24_range (red green blue : Z) :
  (0 <= red <= 255)%Z -> (0 <= green <= 255)%Z -> (0 <= blue <= 255)%Z ->
  (0 <= rgb24 red green blue <= 16777215)%Z.
Proof. unfold rgb24. lia. Qed.

Lemma rgb24_injective (red green blue red' green' blue' : Z) :
  (0 <= red <= 255)%Z -> (0 <= green <= 255)%Z -> (0 <= blue <= 255)%Z ->
  (0 <= red' <= 255)%Z -> (0 <= green' <= 255)%Z -> (0 <= blue' <= 255)%Z ->
  rgb24 red green blue = rgb24 red' green' blue' ->
  red = red' /\ green = green' /\ blue = blue'.
Proof. unfold rgb24. lia. Qed.

(** X14. For integer channels in [0, 255] the decoded elevation lies between
    -10000 and 1667721.5, and two colors that decode to the same elevation
    are the same color. *)
Theorem decoded_elevation_is_bounded_and_determines_the_color :
  forall red green blue : Z,
    (0 <= red <= 255)%Z -> (0 <= green <= 255)%Z -> (0 <= blue <= 255)%Z ->
    (-10000 <= _calculateHeightFromPixel (inject_Z red, inject_Z green, inject_Z blue)
     <= 1667721.5)%Q
    /\ (forall red' green' blue' : Z,
          (0 <= red' <= 255)%Z -> (0 <= green' <= 255)%Z -> (0 <= blue' <= 255)%Z ->
          (_calculateHeightFromPixel (inject_Z red, inject_Z green, inject_Z blue)
           == _calculateHeightFromPixel
                (inject_Z red', inject_Z green', inject_Z blue'))%Q ->
          red = red' /\ green = green' /\ blue = blue').
Proof.
  intros red green blue Hred Hgreen Hblue. split.
  - rewrite decode_linear.
    destruct (rgb24_range red green blue Hred Hgreen Hblue) as [Hlow Hhigh].
    rewrite Zle_Qle in Hlow, Hhigh.
    change (inject_Z 0) with 0%Q in Hlow.
    change (inject_Z 16777215) with 16777215%Q in Hhigh.
    change 0.1%Q with (1 # 10)%Q. change 1667721.5%Q with (16677215 # 10)%Q.
    set (color := inject_Z (rgb24 red green blue)) in *. clearbody color.
    split; lra.
  - intros red' green' blue' Hred' Hgreen' Hblue' Hsame.
    rewrite !decode_linear in Hsame.
    apply rgb24_injective; try assumption.
    apply inject_Z_injective.
    change 0.1%Q with (1 # 10)%Q in Hsame.
    set (color := inject_Z (rgb24 red green blue)) in *.
    set (color' := inject_Z (rgb24 red' green' blue')) in *.
    clearbody color color'. lra.
Qed.

(** X15. The bounding boxes of two tiles that are neighbours in a row
    overlap on their common edge: a point on that edge is within both, so
    the entry that comes first in [requiredTilesObjects] is the one it is
    read from; read from the western tile, its column offset is 256. *)
Theorem shared_edge_is_read_from_the_first_entry :
  forall (x y z : Z) (pointSM : SmCoordinates Q) (data data' : option (Pixels Q)),
    let west := tileObject_of (x, y, z) data in
    let east := tileObject_of ((x + 1)%Z, y, z) data' in
    (sm_x pointSM == inject_Z ((x + 1) * 256))%Q ->
    (inject_Z (y * 256) <= sm_y pointSM <= inject_Z ((y + 1) * 256))%Q ->
    _pointIsWithinTile pointSM (tile_smCoordinates west) = true
    /\ _pointIsWithinTile pointSM (tile_smCoordinates east) = true
    /\ matchingTile_of pointSM [west; east] = Some west
    /\ matchingTile_of pointSM [east; west] = Some east
    /\ (fst (relativeToTile pointSM west) == 256)%Q
    /\ (fst (relativeToTile pointSM east) == 0)%Q.
Proof.
  intros x y z pointSM data data' west east Hx [Hy0 Hy1].
  pose proof (tileObject_of_origin (x, y, z) data) as [Hwx Hwy].
  pose proof (tileObject_of_origin ((x + 1)%Z, y, z) data') as [Hex Hey].
  fold west in Hwx, Hwy. fold east in Hex, Hey.
  rewrite !inject_Z_mult, ?inject_Z_plus in *.
  change (inject_Z 256) with 256%Q in *. change (inject_Z 1) with 1%Q in *.
  assert (Hwest : _pointIsWithinTile pointSM (tile_smCoordinates west) = true).
  { apply pointIsWithinTile_iff. rewrite Hwx, Hwy, Hx.
    set (X := inject_Z x) in *. set (Y := inject_Z y) in *. clearbody X Y.
    repeat split; lra. }
  assert (Heast : _pointIsWithinTile pointSM (tile_smCoordinates east) = true).
  { apply pointIsWithinTile_iff. rewrite Hex, Hey, Hx.
    set (X := inject_Z x) in *. set (Y := inject_Z y) in *. clearbody X Y.
    repeat split; lra. }
  split; [exact Hwest|]. split; [exact Heast|].
  unfold matchingTile_of. cbn [List.filter]. rewrite Hwest, Heast. cbn [head].
  split; [reflexivity|]. split; [reflexivity|].
  unfold relativeToTile. cbn [fst]. js_Q. rewrite Hwx, Hex, Hx.
  split; ring.
Qed.

Lemma pixel_distance_Q (PI : Q) (cos : Q -> Q) (latitude : Q) :
  (_getPixelDistanceAtLatitudeInMeters (H0 := Q_Math PI cos) latitude
   == 40075016.686 * cos (latitude * PI / 180) / inject_Z (2 ^ (15 + 8)))%Q.
Proof.
  unfold _getPixelDistanceAtLatitudeInMeters. js_Q.
  cbn [Math_cos Math_PI Q_Math].
  change (inject_Z 40075016686 / inject_Z (10 ^ 3))%Q with 40075016.686%Q.
  change (inject_Z 180) with 180%Q.
  change (ZOOM_LEVEL + 8)%Z with (15 + 8)%Z.
  field. discriminate.
Qed.

(** The minimum of the auto policy, from the pixel size. *)
Lemma auto_minKm_Q (PI : Q) (cos : Q -> Q) {E : Type} {C : Collaborators Q E}
    (lineString : LineString Q) (numberOfPoints : Z) (token : string)
    (s : ModuleState Q) (longitude latitude : Q) (rest : list (Position Q)) :
  coordinates lineString = (longitude, latitude) :: rest ->
  let pixel :=
    (40075016.686 * cos (latitude * PI / 180) / inject_Z (2 ^ (15 + 8)))%Q in
  minKmBetweenPoints
    (snd (executor (H0 := Q_Math PI cos) lineString numberOfPoints token undefined s))
  = Some (inject_Z (Qceiling (pixel * 10)) / 10000)%Q.
Proof.
  intros Hfirst pixel. rewrite executor_spec. unfold effectiveMinKm. rewrite Hfirst.
  cbn [lookup list_lookup snd minKmBetweenPoints state_after].
  js_Q. cbn [Math_ceil Q_Math]. do 3 f_equal.
  apply Qceiling_comp. now rewrite pixel_distance_Q.
Qed.

Lemma ceiling_tenths_bounds (pixel : Q) :
  (pixel <= inject_Z (Qceiling (pixel * 10)) / 10000 * 1000 < pixel + (1 # 10))%Q.
Proof.
  pose proof (Qle_ceiling (pixel * 10)) as Hle.
  pose proof (Qceiling_lt (pixel * 10)) as Hlt.
  unfold Z.sub in Hlt. rewrite inject_Z_plus in Hlt.
  change (inject_Z (- (1))) with (- (1))%Q in Hlt.
  set (c := inject_Z (Qceiling (pixel * 10))) in *.
  assert (Hmeters : (c / 10000 * 1000 == c * (1 # 10))%Q) by field.
  rewrite Hmeters. clearbody c. split; lra.
Qed.

(** X16. Under the auto policy, when the cosine of the first latitude is in
    [0, 1], the minimum is between 0 and 4.8 meters; and it is at least 0.1
    meters when that cosine is positive. *)
Theorem auto_minimum_is_at_most_the_equator_value :
  forall (PI : Q) (cos : Q -> Q) (E : Type) (C : Collaborators Q E)
         (lineString : LineString Q) (numberOfPoints : Z) (token : string)
         (s : ModuleState Q) (longitude latitude : Q) (rest : list (Position Q)),
    coordinates lineString = (longitude, latitude) :: rest ->
    (0 <= cos (latitude * PI / 180) <= 1)%Q ->
    exists minKm,
      minKmBetweenPoints
        (snd (executor (H0 := Q_Math PI cos) lineString numberOfPoints token
                undefined s)) = Some minKm
      /\ (0 <= minKm * 1000 <= 4.8)%Q
      /\ ((0 < cos (latitude * PI / 180))%Q -> (0.1 <= minKm * 1000)%Q).
Proof.
  intros PI cos E C lineString numberOfPoints token s longitude latitude rest
    Hfirst [Hcos0 Hcos1].
  eexists. split.
  { exact (auto_minKm_Q PI cos lineString numberOfPoints token s longitude latitude rest
             Hfirst). }
  set (pixel := (40075016.686 * cos (latitude * PI / 180) / inject_Z (2 ^ (15 + 8)))%Q).
  assert (Hpixel : (pixel == cos (latitude * PI / 180) * (40075016686 # 8388608000))%Q).
  { subst pixel. change (inject_Z (2 ^ (15 + 8))) with 8388608%Q.
    change 40075016.686%Q with (40075016686 # 1000)%Q. field. }
  assert (Hmeters : forall c : Q, (c / 10000 * 1000 == c * (1 # 10))%Q)
    by (intros c; field).
  rewrite Hmeters. change 4.8%Q with (48 # 10)%Q. change 0.1%Q with (1 # 10)%Q.
  assert (Hlow : (0 <= Qceiling (pixel * 10))%Z).
  { rewrite Zle_Qle. eapply Qle_trans; [|apply Qle_ceiling].
    rewrite Hpixel. change (inject_Z 0) with 0%Q.
    set (c := cos _) in *. clearbody c. lra. }
  assert (Hhigh : (Qceiling (pixel * 10) <= 48)%Z).
  { change 48%Z with (Qceiling 48). apply Qceiling_resp_le.
    rewrite Hpixel. set (c := cos _) in *. clearbody c. lra. }
  rewrite Zle_Qle in Hlow, Hhigh.
  change (inject_Z 0) with 0%Q in Hlow. change (inject_Z 48) with 48%Q in Hhigh.
  split; [split; lra|].
  intros Hpositive.
  assert (Hone : (1 <= Qceiling (pixel * 10))%Z).
  { assert (Hlt : (0 < Qceiling (pixel * 10))%Z); [|lia].
    rewrite Zlt_Qlt. eapply Qlt_le_trans; [|apply Qle_ceiling].
    rewrite Hpixel. change (inject_Z 0) with 0%Q.
    set (c := cos _) in *. clearbody c. lra. }
  rewrite Zle_Qle in Hone. change (inject_Z 1) with 1%Q in Hone. lra.
Qed.

(** X17. Under the auto policy and for [numberOfPoints >= 2], two
    consecutive distances of the plan, the final one apart, are at least
    the ground size of one pixel at the first latitude apart. *)
Theorem auto_policy_spaces_samples_a_pixel_apart :
  forall (PI : Q) (cos : Q -> Q) (E : Type) (C : Collaborators Q E)
         (lineString : LineString Q) (numberOfPoints : Z) (token : string)
         (s : ModuleState Q) (longitude latitude : Q) (rest : list (Position Q)),
    coordinates lineString = (longitude, latitude) :: rest ->
    (2 <= numberOfPoints)%Z ->
    let started :=
      executor (H0 := Q_Math PI cos) lineString numberOfPoints token undefined s in
    let distances :=
      _getLineStringDistancesToCheck (snd started) lineString numberOfPoints in
    let pixel :=
      (40075016.686 * cos (latitude * PI / 180) / inject_Z (2 ^ (15 + 8)))%Q in
    forall (i : nat) (d d' : Q),
      distances !! i = Some d ->
      distances !! S i = Some d' ->
      (S (S i) < length distances)%nat ->
      (pixel <= (d' - d) * 1000)%Q.
Proof.
  intros PI cos E C lineString numberOfPoints token s longitude latitude rest
    Hfirst Hn started distances pixel i d d' Hd Hd' Hinner.
  destruct (consecutive_distances (snd started) lineString numberOfPoints Hn i d d' Hd Hd')
    as [Hstep _].
  rewrite (Hstep Hinner).
  pose proof (step_at_least_minimum (minKmBetweenPoints (snd started))
                (turf_length lineString) numberOfPoints _
                (auto_minKm_Q PI cos lineString numberOfPoints token s
                   longitude latitude rest Hfirst)) as Hmin.
  cbv zeta in Hmin. fold pixel in Hmin.
  eapply Qle_trans; [apply (ceiling_tenths_bounds pixel)|].
  apply Qmult_le_compat_r; [exact Hmin|discriminate].
Qed.

(** ** Concrete instances *)

(** Witness of X2: a line of 0.1 km, 5 points, no minimum. *)
Lemma exactly_numberOfPoints_without_minimum_witness :
  let C := stub_collaborators unit (1 # 10)%Q (0, 0)%Q (0, 0)%Q [] (fun _ => inl tt) in
  Z.of_nat (length (_getLineStringDistancesToCheck (H1 := C) initial_state any_line 5))
  = 5%Z.
Proof.
  intros C.
  apply (exactly_numberOfPoints_without_minimum unit C initial_state any_line 5%Z);
    [reflexivity | lia | reflexivity].
Defined.

(** Witness of X3: a line of 0.1 km, 50 points, a minimum of 60 m. *)
Lemma distances_start_at_zero_and_increase_witness :
  let C := stub_collaborators unit (1 # 10)%Q (0, 0)%Q (0, 0)%Q [] (fun _ => inl tt) in
  let s := {| requiredTilesObjects := []; tilePromises := [];
              minKmBetweenPoints := Some (60 / 1000)%Q |} in
  let distances := _getLineStringDistancesToCheck (H1 := C) s any_line 50 in
  (exists first rest, distances = first :: rest /\ (first == 0)%Q)
  /\ StronglySorted Qlt distances.
Proof.
  intros C s.
  apply (distances_start_at_zero_and_increase unit C s any_line 50%Z);
    [lia | reflexivity].
Defined.

(** Witness of X4: the same line and minimum. *)
Lemma samples_evenly_spaced_witness :
  let C := stub_collaborators unit (1 # 10)%Q (0, 0)%Q (0, 0)%Q [] (fun _ => inl tt) in
  let s := {| requiredTilesObjects := []; tilePromises := [];
              minKmBetweenPoints := Some (60 / 1000)%Q |} in
  let step := stepDistance_of (Some (60 / 1000)%Q) (1 # 10)%Q 50 in
  let distances := _getLineStringDistancesToCheck (H1 := C) s any_line 50 in
  ((1 # 10) / inject_Z (50 - 1) <= step)%Q
  /\ (forall minKm, Some (60 / 1000)%Q = Some minKm -> (minKm <= step)%Q)
  /\ (forall (i : nat) (d d' : Q),
        distances !! i = Some d ->
        distances !! S i = Some d' ->
        ((S (S i) < length distances)%nat -> (d' - d == step)%Q)
        /\ (S (S i) = length distances -> (0 < d' - d <= step)%Q)).
Proof.
  intros C s.
  apply (samples_evenly_spaced unit C s any_line 50%Z). lia.
Defined.

(** Witness of X5: the same line and minimum; at most 3 distances. *)
Lemma distance_count_bounded_by_minimum_witness :
  let C := stub_collaborators unit (1 # 10)%Q (0, 0)%Q (0, 0)%Q [] (fun _ => inl tt) in
  let s := {| requiredTilesObjects := []; tilePromises := [];
              minKmBetweenPoints := Some (60 / 1000)%Q |} in
  (Z.of_nat (length (_getLineStringDistancesToCheck (H1 := C) s any_line 50))
   <= Qceiling ((1 # 10) / (60 / 1000)) + 1)%Z.
Proof.
  intros C s.
  apply (distance_count_bounded_by_minimum unit C s any_line 50%Z (60 / 1000)%Q);
    [reflexivity | reflexivity | discriminate].
Defined.

(** Witness of X6: a line inside tile [(16384, 16384)], sampled at its two
    ends. *)
Lemma resolved_features_are_the_decoded_samples_witness :
  let call := getLineStringElevationPoints (H0 := unused_Math) (H1 := inside_tile_world)
                inside_tile_line 2 EmptyString null [0]%nat initial_state in
  let started := executor (E := nat) (H0 := unused_Math) (H1 := inside_tile_world)
                   inside_tile_line 2 EmptyString null initial_state in
  exists featureCollection,
    fst call = Resolved featureCollection
    /\ Forall2
         (fun distance feature =>
            let position := turf_along (Collaborators := inside_tile_world)
                              inside_tile_line distance in
            let pixel := sphericalMercator_px (Collaborators := inside_tile_world)
                           position ZOOM_LEVEL in
            let pointSM := {| sm_x := fst pixel; sm_y := snd pixel |} in
            feature_coordinates feature = (Some (fst position), Some (snd position))
            /\ feature_distanceAlongLine feature = Some (distance * inject_Z 1000)%Q
            /\ feature_smCoordinates feature = None
            /\ exists tile pixels,
                 matchingTile_of pointSM (requiredTilesObjects (snd call)) = Some tile
                 /\ tileData tile = Some pixels
                 /\ (let '(x, y, z) := tile_coordinates tile in
                     always_red {| request_z := z; request_x := x; request_y := y;
                                   access_token := EmptyString |} = inr pixels)
                 /\ feature_elevation feature =
                    Some (Some (_calculateHeightFromPixel
                      (get pixels (sm_x pointSM - sm_x (tile_smCoordinates tile))
                                  (sm_y pointSM - sm_y (tile_smCoordinates tile)) 0,
                       get pixels (sm_x pointSM - sm_x (tile_smCoordinates tile))
                                  (sm_y pointSM - sm_y (tile_smCoordinates tile)) 1,
                       get pixels (sm_x pointSM - sm_x (tile_smCoordinates tile))
                                  (sm_y pointSM - sm_y (tile_smCoordinates tile)) 2))%Q))
         (_getLineStringDistancesToCheck (H1 := inside_tile_world) (snd started)
            inside_tile_line 2)
         (features featureCollection).
Proof.
  intros call started. eexists. split; [vm_compute; reflexivity|].
  exact (resolved_features_are_the_decoded_samples (H0 := unused_Math)
           (H1 := inside_tile_world) inside_tile_line 2%Z EmptyString null
           [0]%nat initial_state _ eq_refl).
Defined.

(** Witness of X7: the same run resolves. *)
Lemma resolves_iff_fetched_and_covered_witness :
  exists featureCollection,
    fst (getLineStringElevationPoints (H0 := equator_Math) (H1 := zero_length_world)
           zero_length_line 5 EmptyString undefined [0]%nat initial_state)
    = Resolved featureCollection.
Proof.
  eapply (resolves_iff_fetched_and_covered (H0 := equator_Math)
            (H1 := zero_length_world) zero_length_line 5%Z EmptyString undefined
            [0]%nat initial_state).
  - reflexivity.
  - split; [|split].
    + intros k Hk. cbn in Hk. left. lia.
    + intros k promise [<-|[]] [= <-]. cbn. eauto.
    + intros point [<-|[]]. eexists _, _.
      split; [reflexivity|]. split; [left; reflexivity|reflexivity].
Defined.

(** Witness of X8: two tiles are required; the request for the western one
    fails and settles first, the other one has not settled. *)
Lemma rejects_at_first_failure_and_waits_otherwise_witness :
  let C := stub_collaborators nat 1%Q (0, 0)%Q origin_pixel [origin_tile; west_tile]
             fails_west in
  (exists error,
     fst (getLineStringElevationPoints (H0 := unused_Math) (H1 := C)
            any_line 5 EmptyString null [1]%nat initial_state)
     = Rejected (GetPixelsError error))
  /\ fst (getLineStringElevationPoints (H0 := unused_Math) (H1 := C)
            any_line 5 EmptyString null [0]%nat initial_state)
     = Pending.
Proof.
  intros C. split.
  - eapply (rejects_at_first_failure_and_waits_otherwise (H0 := unused_Math) (H1 := C)
              any_line 5%Z EmptyString null [1]%nat initial_state).
    + reflexivity.
    + exists 1%nat. eexists _, 503%nat.
      split; [left; reflexivity|]. split; reflexivity.
  - eapply (rejects_at_first_failure_and_waits_otherwise (H0 := unused_Math) (H1 := C)
              any_line 5%Z EmptyString null [0]%nat initial_state).
    + reflexivity.
    + split.
      * intros k promise [<-|[]] [= <-]. cbn. eauto.
      * exists 1%nat. split; [cbn; lia|]. intros [Heq|[]]. discriminate.
Defined.

(** Witness of X9: the two orders in which two requests can settle. *)
Lemma settling_order_only_selects_the_error_witness :
  let C := stub_collaborators nat 1%Q (0, 0)%Q origin_pixel [origin_tile; west_tile]
             fails_west in
  let run := fun order =>
    getLineStringElevationPoints (H0 := unused_Math) (H1 := C)
      any_line 5 EmptyString null order initial_state in
  snd (run [1; 0]%nat) = snd (run [0; 1]%nat)
  /\ (fst (run [1; 0]%nat) = fst (run [0; 1]%nat)
      \/ exists error error',
           fst (run [1; 0]%nat) = Rejected (GetPixelsError error)
           /\ fst (run [0; 1]%nat) = Rejected (GetPixelsError error')).
Proof.
  intros C.
  apply (settling_order_only_selects_the_error (H0 := unused_Math) (H1 := C)
           any_line 5%Z EmptyString null [1; 0]%nat [0; 1]%nat initial_state).
  - apply perm_swap.
  - apply Permutation_refl.
Defined.

(** Witness of X12: the run on the line at longitude 0, latitude 0. *)
Lemma resolved_collection_has_at_most_numberOfPoints_features_witness :
  exists featureCollection,
    fst (getLineStringElevationPoints (H0 := equator_Math) (H1 := zero_length_world)
           zero_length_line 5 EmptyString undefined [0]%nat initial_state)
    = Resolved featureCollection
    /\ (Z.of_nat (length (features featureCollection)) <= 5)%Z.
Proof.
  eexists. split; [vm_compute; reflexivity|].
  apply (resolved_collection_has_at_most_numberOfPoints_features (H0 := equator_Math)
           (H1 := zero_length_world) zero_length_line 5%Z EmptyString undefined
           [0]%nat initial_state); [vm_compute; reflexivity | lia].
Defined.

(** Witness of X13: the sampled points project to pixel (100, 100), outside
    the only required tile. *)
Lemma a_call_is_rejected_for_three_reasons_only_witness :
  let C := stub_collaborators nat 1%Q (0, 0)%Q (100, 100)%Q [origin_tile] always_red in
  let call := getLineStringElevationPoints (H0 := unused_Math) (H1 := C)
                any_line 2 EmptyString null [0]%nat initial_state in
  exists error,
    fst call = Rejected error
    /\ ((error = TypeError coordinates_0
         /\ (null : MinMeters Q) = undefined /\ coordinates (any_line (num := Q)) = [])
        \/ (exists request_error, error = GetPixelsError request_error)
        \/ (error = TypeError matchingTile
            /\ (forall k, (k < length (tilePromises (snd call)))%nat -> In k [0]%nat)
            /\ Forall (fun tile => is_Some (tileData tile))
                 (requiredTilesObjects (snd call)))).
Proof.
  intros C call. eexists. split; [vm_compute; reflexivity|].
  exact (a_call_is_rejected_for_three_reasons_only (H0 := unused_Math) (H1 := C)
           any_line 2%Z EmptyString null [0]%nat initial_state _ eq_refl).
Defined.

(** Witness of X14: the color (10, 0, 0). *)
Lemma decoded_elevation_is_bounded_and_determines_the_color_witness :
  (-10000 <= _calculateHeightFromPixel (inject_Z 10, inject_Z 0, inject_Z 0)
   <= 1667721.5)%Q.
Proof.
  apply (decoded_elevation_is_bounded_and_determines_the_color 10 0 0); lia.
Defined.

(** Witness of X15: the edge between the tiles (0, 0) and (1, 0). *)
Lemma shared_edge_is_read_from_the_first_entry_witness :
  let pointSM := {| sm_x := 256%Q; sm_y := 100%Q |} in
  let west := tileObject_of (0, 0, 15)%Z (Some column_probe) in
  let east := tileObject_of ((0 + 1)%Z, 0%Z, 15%Z) (Some column_probe) in
  _pointIsWithinTile pointSM (tile_smCoordinates west) = true
  /\ _pointIsWithinTile pointSM (tile_smCoordinates east) = true
  /\ matchingTile_of pointSM [west; east] = Some west
  /\ matchingTile_of pointSM [east; west] = Some east
  /\ (fst (relativeToTile pointSM west) == 256)%Q
  /\ (fst (relativeToTile pointSM east) == 0)%Q.
Proof.
  apply (shared_edge_is_read_from_the_first_entry 0 0 15
           {| sm_x := 256%Q; sm_y := 100%Q |} (Some column_probe) (Some column_probe)).
  - reflexivity.
  - split; discriminate.
Defined.

(** Witness of X16: a line that starts at latitude 0. *)
Lemma auto_minimum_is_at_most_the_equator_value_witness :
  exists minKm,
    minKmBetweenPoints
      (snd (executor (H0 := equator_Math) (H1 := zero_length_world)
              zero_length_line 5 EmptyString undefined initial_state)) = Some minKm
    /\ (0 <= minKm * 1000 <= 4.8)%Q
    /\ ((0 < 1)%Q -> (0.1 <= minKm * 1000)%Q).
Proof.
  apply (auto_minimum_is_at_most_the_equator_value (355 # 113) (fun _ => 1%Q) nat
           zero_length_world zero_length_line 5%Z EmptyString initial_state
           0%Q 0%Q [(0, 0)%Q]).
  - reflexivity.
  - split; discriminate.
Defined.

(** Witness of X17: a line of 10 m that starts at latitude 0, 5 points. *)
Lemma auto_policy_spaces_samples_a_pixel_apart_witness :
  let C := stub_collaborators nat (1 # 100)%Q (0, 0)%Q origin_pixel [origin_tile]
             always_red in
  let started :=
    executor (E := nat) (H0 := equator_Math) (H1 := C) zero_length_line 5 EmptyString
      undefined initial_state in
  let distances :=
    _getLineStringDistancesToCheck (H1 := C) (snd started) zero_length_line 5 in
  exists d d',
    distances !! 0%nat = Some d
    /\ distances !! 1%nat = Some d'
    /\ (40075016.686 * 1 / inject_Z (2 ^ (15 + 8)) <= (d' - d) * 1000)%Q.
Proof.
  intros C started distances. eexists _, _.
  split; [vm_compute; reflexivity|]. split; [vm_compute; reflexivity|].
  apply (auto_policy_spaces_samples_a_pixel_apart (355 # 113) (fun _ => 1%Q) nat C
           zero_length_line 5%Z EmptyString initial_state 0%Q 0%Q [(0, 0)%Q]
           eq_refl ltac:(lia) 0%nat).
  - vm_compute. reflexivity.
  - vm_compute. reflexivity.
  - vm_compute. lia.
Defined.
